(** * pkg/cmd/step/helm/step_helm.go: the helm step's shared helpers

    A shallow embedding of the methods of [StepHelmOptions] that fill in the
    missing versions of a chart's requirements from the version stream and
    that apply the provider specific overrides of the helm values.

    Go values that come in pairs [(T, error)] are pairs [T * option error]
    here, [None] being the nil error; a pointer that the code compares with
    nil is an [option].  Every call that leaves this file (the file system,
    the version stream, the template engine, the logger) is recorded as an
    [Event], in the order in which the code makes it. *)

From stdpp Require Import base strings list gmap.

Open Scope string_scope.
Open Scope list_scope.

(** ** Errors *)

(** [fmt.Errorf] makes a fresh error from a message, [errors.Wrapf] puts a
    message in front of a cause.  The collaborators return errors of
    either shape. *)
Inductive error : Type :=
| Errorf (msg : string)
| Wrapf (cause : error) (msg : string).

(** [err.Error()]: a wrapped error prints its message, a colon and its
    cause. *)
Fixpoint Error (e : error) : string :=
  match e with
  | Errorf msg => msg
  | Wrapf cause msg => msg +:+ ": " +:+ Error cause
  end.

(** ** Data *)

(** Modelled from the spec: the struct [helm.Dependency] is declared in
    pkg/helm, outside this file; these are the fields the spec lists and
    the only ones this file reads or writes. *)
Record Dependency : Type := {
  Name : string;
  Version : string;
  Repository : string;
  Alias : string
}.

(** [dep.Version = newVersion] through the pointer [dep]. *)
Definition set_Version (v : string) (dep : Dependency) : Dependency :=
  {| Name := Name dep; Version := v;
     Repository := Repository dep; Alias := Alias dep |}.

(** [helm.Requirements]: the slice of pointers [Dependencies], each entry a
    cell of its own once loaded, so that a write through [dep] in the loop
    updates that entry of the document and no other. *)
Record Requirements : Type := { Dependencies : list Dependency }.

(** The parts of [config.RequirementsConfig] read here. *)
Record ClusterConfig : Type := { Provider : string }.
Record VersionStreamConfig : Type := { URL : string; Ref : string }.
Record RequirementsConfig : Type := {
  Cluster : ClusterConfig;
  VersionStream : VersionStreamConfig
}.

(** [versionstream.VersionKind] is a string type; the template function
    converts its first argument to it. *)
Definition VersionKind : Type := string.

Definition bytes : Type := list Byte.byte.

Inductive Level : Type := Debug | Info | Warn | ErrorLevel.

Definition nl : string := String (Ascii.ascii_of_nat 10) "".

Section Embedding.

(** The collaborators' own types: the state of the file system and of the
    version stream checkout, the resolver a [*versionstream.VersionResolver]
    points to, the repository prefixes a [*versionstream.RepositoryPrefixes]
    points to, a parsed values tree ([chartutil.Values]), and the template
    functions [helm.NewFunctionMap] supplies. *)
Context {World VersionResolver Prefixes Values LibFunc : Type}.

(** ** Calls that leave this file *)

Inductive Event : Type :=
| FileExistsCall (path : string)
| LoadRequirementsFileCall (fileName : string)
| SaveFileCall (fileName : string) (req : Requirements)
| CreateVersionResolverCall (url ref : string)
| StableVersionNumberCall (resolver : option VersionResolver)
    (kind : VersionKind) (name : string)
| GetRepositoryPrefixesCall (resolver : option VersionResolver)
| ReadValuesYamlFileTemplateOutputCall (templateFile : string)
| LoadValuesCall (data : bytes)
| CombineMapTreesCall (values overrides : Values)
| MarshalCall (values : Values)
| LogCall (level : Level) (msg : string).

(** A template function: either one of the library's, or a Go function of
    two strings to a string together with the calls it makes. *)
Inductive TemplateFunc : Type :=
| Library (f : LibFunc)
| Func2 (f : string → string → string * list Event).

(** The packages this file imports, as an interface.  [StableVersionNumber]
    and [GetRepositoryPrefixes] are methods with a pointer receiver, called
    here on whatever pointer the code holds.  [helm.LoadRequirementsFile]
    and [GetRepositoryPrefixes] answer a pointer that the code uses only
    after it has seen a nil error; it is the document, and the prefixes,
    here.  [PrefixForURL] answers the empty string for a repository that
    it has no prefix for, which is how the code reads it.  The rendering
    of a template runs the functions of the function map it is given:
    [helm_ReadValuesYamlFileTemplateOutput] is what the rendering answers,
    and [helm_versionStreamCalls] the arguments of the calls of the
    function versionStream that it makes on the way, in their order. *)
Class Externals : Type := {
  KindChart : VersionKind;
  SecretsFileName : string;
  RequirementsFileName : string;
  filepath_Join : list string → string;
  util_ColorInfo : string → string;
  util_FileExists : string → World → bool * option error;
  helm_LoadRequirementsFile : string → World → Requirements * option error;
  helm_SaveFile : string → Requirements → World → World * option error;
  CreateVersionResolver :
    string → string → World → World * (option VersionResolver * option error);
  StableVersionNumber :
    option VersionResolver → VersionKind → string → string * option error;
  GetRepositoryPrefixes : option VersionResolver → Prefixes * option error;
  PrefixForURL : Prefixes → string → string;
  helm_NewFunctionMap : gmap string TemplateFunc;
  helm_ReadValuesYamlFileTemplateOutput :
    string → Values → gmap string TemplateFunc → RequirementsConfig →
    World → bytes * option error;
  helm_versionStreamCalls :
    string → Values → gmap string TemplateFunc → RequirementsConfig →
    World → list (string * string);
  helm_LoadValues : bytes → Values * option error;
  util_CombineMapTrees : Values → Values → Values;
  yaml_Marshal : Values → bytes * option error
}.

Context `{!Externals}.

(** ** State and the monad of the methods *)

(** What a method of [*StepHelmOptions] reads and writes: the receiver's
    fields [Dir] and [versionResolver], and the world outside.  The other
    fields of the receiver are flags that no method here touches. *)
Record State : Type := {
  Dir : string;
  versionResolver : option VersionResolver;
  world : World
}.

Definition set_versionResolver (r : option VersionResolver) (s : State) : State :=
  {| Dir := Dir s; versionResolver := r; world := world s |}.

Definition set_world (w : World) (s : State) : State :=
  {| Dir := Dir s; versionResolver := versionResolver s; world := w |}.

(** A computation returns its result, the state it leaves and the calls it
    made, oldest first. *)
Definition M (A : Type) : Type := State → A * State * list Event.

Definition ret {A} (a : A) : M A := λ s, (a, s, []).

Definition bind {A B} (m : M A) (k : A → M B) : M B :=
  λ s, let '(a, s1, ev1) := m s in
       let '(b, s2, ev2) := k a s1 in
       (b, s2, ev1 ++ ev2).

Definition emit (e : Event) : M unit := λ s, (tt, s, [e]).

(** Reading the field [o.Dir]; reading and writing [o.versionResolver]. *)
Definition read_Dir : M string := λ s, (Dir s, s, []).

Definition read_versionResolver : M (option VersionResolver) :=
  λ s, (versionResolver s, s, []).

Definition write_versionResolver (r : option VersionResolver) : M unit :=
  λ s, (tt, set_versionResolver r s, []).

Definition result {A} (x : A * State * list Event) : A := x.1.1.
Definition final {A} (x : A * State * list Event) : State := x.1.2.
Definition events {A} (x : A * State * list Event) : list Event := x.2.

Notation "'let*' x := m 'in' k" := (bind m (λ x, k))
  (at level 10, x pattern, m at level 100, k at level 200, only parsing).

(** ** The collaborators, as recorded calls *)

Definition logf (level : Level) (msg : string) : M unit :=
  emit (LogCall level msg).

Definition FileExists (path : string) : M (bool * option error) :=
  λ s, (util_FileExists path (world s), s, [FileExistsCall path]).

Definition LoadRequirementsFile (fileName : string)
  : M (Requirements * option error) :=
  λ s, (helm_LoadRequirementsFile fileName (world s), s,
        [LoadRequirementsFileCall fileName]).

Definition SaveFile (fileName : string) (req : Requirements)
  : M (option error) :=
  λ s, let '(w, err) := helm_SaveFile fileName req (world s) in
       (err, set_world w s, [SaveFileCall fileName req]).

Definition callCreateVersionResolver (url ref : string)
  : M (option VersionResolver * option error) :=
  λ s, let '(w, r) := CreateVersionResolver url ref (world s) in
       (r, set_world w s, [CreateVersionResolverCall url ref]).

Definition callStableVersionNumber (resolver : option VersionResolver)
    (kind : VersionKind) (name : string) : M (string * option error) :=
  λ s, (StableVersionNumber resolver kind name, s,
        [StableVersionNumberCall resolver kind name]).

Definition callGetRepositoryPrefixes (resolver : option VersionResolver)
  : M (Prefixes * option error) :=
  λ s, (GetRepositoryPrefixes resolver, s,
        [GetRepositoryPrefixesCall resolver]).

(** The calls that the function stored under the name versionStream makes
    when the rendering calls it with these arguments, one call after the
    other. *)
Definition versionStreamEvents (funcMap : gmap string TemplateFunc)
    (calls : list (string * string)) : list Event :=
  match funcMap !! "versionStream" with
  | Some (Func2 f) => flat_map (λ call, (f call.1 call.2).2) calls
  | _ => []
  end.

(** The rendering: the calls that its template functions make are made
    while it runs. *)
Definition ReadValuesYamlFileTemplateOutput (templateFile : string)
    (params : Values) (funcMap : gmap string TemplateFunc)
    (requirements : RequirementsConfig) : M (bytes * option error) :=
  λ s, (helm_ReadValuesYamlFileTemplateOutput templateFile params funcMap
          requirements (world s), s,
        ReadValuesYamlFileTemplateOutputCall templateFile ::
        versionStreamEvents funcMap
          (helm_versionStreamCalls templateFile params funcMap requirements
             (world s))).

Definition LoadValues (data : bytes) : M (Values * option error) :=
  λ s, (helm_LoadValues data, s, [LoadValuesCall data]).

Definition CombineMapTrees (values overrides : Values) : M Values :=
  λ s, (util_CombineMapTrees values overrides, s,
        [CombineMapTreesCall values overrides]).

Definition Marshal (values : Values) : M (bytes * option error) :=
  λ s, (yaml_Marshal values, s, [MarshalCall values]).

(** ** discoverValuesFiles *)

(** The body of the [range] loop over the three names, from the name at
    hand on: [valuesFiles] is what has been appended so far. *)
Fixpoint discoverValuesFiles_loop (dir : string) (names : list string)
    (valuesFiles : list string) : M (list string * option error) :=
  match names with
  | [] => ret (valuesFiles, None)
  | name :: names' =>
      let path := filepath_Join [dir; name] in
      let* (exists_, err) := FileExists path in
      match err with
      | Some e => ret (valuesFiles, Some e)
      | None =>
          discoverValuesFiles_loop dir names'
            (if exists_ then valuesFiles ++ [path] else valuesFiles)
      end
  end.

Definition discoverValuesFiles (dir : string)
  : M (list string * option error) :=
  discoverValuesFiles_loop dir
    ["values.yaml"; SecretsFileName; "myvalues.yaml"] [].

(** ** getOrCreateVersionResolver *)

Definition getOrCreateVersionResolver (requirementsConfig : RequirementsConfig)
  : M (option VersionResolver * option error) :=
  let* stored := read_versionResolver in
  match stored with
  | None =>
      let vs := VersionStream requirementsConfig in
      let* (created, err) := callCreateVersionResolver (URL vs) (Ref vs) in
      let* _ := write_versionResolver created in
      match err with
      | Some e =>
          let* r := read_versionResolver in
          ret (r, Some (Wrapf e "failed to create version resolver"))
      | None =>
          let* r := read_versionResolver in
          ret (r, None)
      end
  | Some _ =>
      let* r := read_versionResolver in
      ret (r, None)
  end.

(** ** verifyRequirementsYAML *)

(** The name used in the messages: the alias, or the name when there is no
    alias. *)
Definition displayName (dep : Dependency) : string :=
  if decide (Alias dep = "") then Name dep else Alias dep.

(** One turn of the loop over [req.Dependencies].  It answers the entry as
    the turn leaves it, whether the turn set [modified], and the error the
    turn returns from the method with, if any. *)
Definition verifyRequirementsYAML_dep (resolver : option VersionResolver)
    (prefixes : Prefixes) (fileName : string) (dep : Dependency)
  : M (Dependency * bool * option error) :=
  if decide (Version dep = "") then
    let name := displayName dep in
    let repo := Repository dep in
    if decide (repo = "") then
      ret (dep, false, Some (Errorf (
        "cannot to find a version for dependency " +:+ name +:+ " in file "
        +:+ fileName +:+ " as there is no 'repository'")))
    else
      let prefix := PrefixForURL prefixes repo in
      if decide (prefix = "") then
        ret (dep, false, Some (Errorf (
          "the helm repository " +:+ repo +:+
          " does not have an associated prefix in in the 'charts/repositories.yml' file the version stream, so we cannot default the version in file "
          +:+ fileName)))
      else
        let fullChartName := prefix +:+ "/" +:+ Name dep in
        let* (newVersion, err) :=
          callStableVersionNumber resolver KindChart fullChartName in
        match err with
        | Some e =>
            ret (dep, false, Some (Wrapf e (
              "failed to find version of chart " +:+ fullChartName +:+
              " in file " +:+ fileName)))
        | None =>
            if decide (newVersion = "") then
              ret (dep, false, Some (Errorf (
                "failed to find a version for dependency " +:+ name +:+
                " in file " +:+ fileName +:+
                " in the current version stream - please either add an explicit version to this file or add chart "
                +:+ fullChartName +:+ " to the version stream")))
            else
              let* _ := logf Debug (
                "adding version " +:+ newVersion +:+ " to dependency " +:+
                name +:+ " in file " +:+ fileName) in
              ret (set_Version newVersion dep, true, None)
        end
  else ret (dep, false, None).

(** The loop, from the entry at hand on.  It answers the entries as the
    loop leaves them (those after a failing entry are not visited), the
    flag [modified], and the error the method returns with, if any. *)
Fixpoint verifyRequirementsYAML_loop (resolver : option VersionResolver)
    (prefixes : Prefixes) (fileName : string)
    (deps : list Dependency) (modified : bool)
  : M (list Dependency * bool * option error) :=
  match deps with
  | [] => ret ([], modified, None)
  | dep :: rest =>
      let* (dep', set, err) :=
        verifyRequirementsYAML_dep resolver prefixes fileName dep in
      match err with
      | Some e => ret (dep' :: rest, modified || set, Some e)
      | None =>
          let* (rest', modified', err') :=
            verifyRequirementsYAML_loop resolver prefixes fileName rest
              (modified || set) in
          ret (dep' :: rest', modified', err')
      end
  end.

Definition verifyRequirementsYAML (resolver : option VersionResolver)
    (prefixes : Prefixes) (fileName : string) : M (option error) :=
  let* (req, err) := LoadRequirementsFile fileName in
  match err with
  | Some e => ret (Some (Wrapf e ("failed to load " +:+ fileName)))
  | None =>
      let* (deps, modified, err) :=
        verifyRequirementsYAML_loop resolver prefixes fileName
          (Dependencies req) false in
      match err with
      | Some e => ret (Some e)
      | None =>
          if modified then
            let* err := SaveFile fileName {| Dependencies := deps |} in
            match err with
            | Some e => ret (Some (Wrapf e ("failed to save " +:+ fileName)))
            | None =>
                let* _ := logf Debug (
                  "adding dependency versions to file " +:+ fileName) in
                ret None
            end
          else ret None
      end
  end.

(** ** replaceMissingVersionsFromVersionStream *)

Definition replaceMissingVersionsFromVersionStream
    (requirementsConfig : RequirementsConfig) (dir : string)
  : M (option error) :=
  let fileName := filepath_Join [dir; RequirementsFileName] in
  let* (exists_, err) := FileExists fileName in
  match err with
  | Some e => ret (Some (Wrapf e ("failed to check for file " +:+ fileName)))
  | None =>
      if negb exists_ then
        let* _ := logf Info (
          "No requirements file: " +:+ fileName +:+
          " so not checking for missing versions" +:+ nl) in
        ret None
      else
        let vs := VersionStream requirementsConfig in
        let* oDir := read_Dir in
        let* _ := logf Info (
          "Verifying the helm requirements versions in dir: " +:+ oDir +:+
          " using version stream URL: " +:+ URL vs +:+ " and git ref: " +:+
          Ref vs +:+ nl) in
        let* (resolver, err) :=
          getOrCreateVersionResolver requirementsConfig in
        match err with
        | Some e => ret (Some (Wrapf e "failed to create version resolver"))
        | None =>
            let* (prefixes, err) := callGetRepositoryPrefixes resolver in
            match err with
            | Some e =>
                ret (Some (Wrapf e "failed to load repository prefixes"))
            | None =>
                let* err := verifyRequirementsYAML resolver prefixes fileName in
                match err with
                | Some e =>
                    ret (Some (Wrapf e (
                      "failed to replace missing versions in file " +:+
                      fileName)))
                | None => ret None
                end
            end
        end
  end.

(** ** createFuncMap *)

(** The function stored under the name versionStream, a closure over
    [resolver]. *)
Definition versionStream (resolver : option VersionResolver)
    (kindString name : string) : string * list Event :=
  let kind : VersionKind := kindString in
  let '(version, err) := StableVersionNumber resolver kind name in
  (version,
   StableVersionNumberCall resolver kind name ::
   match err with
   | Some e =>
       [LogCall ErrorLevel (
          "failed to find " +:+ kindString +:+ " version for " +:+ name +:+
          " in the version stream due to: " +:+ Error e +:+ nl)]
   | None => []
   end).

Definition createFuncMap (requirementsConfig : RequirementsConfig)
  : M (gmap string TemplateFunc * option error) :=
  let funcMap := helm_NewFunctionMap in
  let* (resolver, err) := getOrCreateVersionResolver requirementsConfig in
  match err with
  | Some e => ret (funcMap, Some e)
  | None =>
      ret (<["versionStream" := Func2 (versionStream resolver)]> funcMap, None)
  end.

(** ** overwriteProviderValues *)

Definition overwriteProviderValues (requirements : RequirementsConfig)
    (requirementsFileName : string) (valuesData : bytes) (params : Values)
    (providersValuesDir : string) : M (bytes * option error) :=
  let provider := Provider (Cluster requirements) in
  if decide (provider = "") then
    let* _ := logf Warn (
      "No provider in the requirements file " +:+ requirementsFileName +:+
      nl) in
    ret (valuesData, None)
  else
    let valuesTmplYamlFile :=
      filepath_Join [providersValuesDir; provider; "values.tmpl.yaml"] in
    let* (exists_, err) := FileExists valuesTmplYamlFile in
    match err with
    | Some e =>
        ret (valuesData, Some (Wrapf e (
          "failed to check if file exists: " +:+ valuesTmplYamlFile)))
    | None =>
    let* _ := logf Info (
      "Applying the kubernetes overrides at " +:+
      util_ColorInfo valuesTmplYamlFile +:+ nl) in
    if negb exists_ then
      let* _ := logf Warn (
        "No provider specific values overrides exist in file " +:+
        valuesTmplYamlFile +:+ nl) in
      ret (valuesData, None)
    else
    let* (funcMap, err) := createFuncMap requirements in
    match err with
    | Some e => ret (valuesData, Some e)
    | None =>
    let* (overrideData, err) :=
      ReadValuesYamlFileTemplateOutput valuesTmplYamlFile params funcMap
        requirements in
    match err with
    | Some e =>
        ret (valuesData, Some (Wrapf e (
          "failed to load provider specific helm value overrides " +:+
          valuesTmplYamlFile)))
    | None =>
    if decide (length overrideData = 0) then ret (valuesData, None)
    else
    let* (values, err) := LoadValues valuesData in
    match err with
    | Some e =>
        ret (valuesData,
             Some (Wrapf e "failed to unmarshal the default helm values"))
    | None =>
    let* (overrides, err) := LoadValues overrideData in
    match err with
    | Some e =>
        ret (valuesData,
             Some (Wrapf e "failed to unmarshal the default helm values"))
    | None =>
    let* values := CombineMapTrees values overrides in
    let* (data, err) := Marshal values in
    ret (data, err)
    end end end end end.

End Embedding.

Arguments Event : clear implicits.
Arguments TemplateFunc : clear implicits.
Arguments Externals : clear implicits.
Arguments State : clear implicits.
Arguments M : clear implicits.

(** ** getChartValues *)

Section ChartValues.

(** [util.ToCamelCase], of pkg/util. *)
Variable ToCamelCase : string → string.

Definition getChartValues (targetNS : string) : list string * list string :=
  (["tags.jx-ns-" +:+ targetNS +:+ "=true";
    "global.jxNs" +:+ ToCamelCase targetNS +:+ "=true"],
   ["global.jxNs=" +:+ targetNS]).

End ChartValues.

#[global] Instance Dependency_eq_dec : EqDecision Dependency :=
  ltac:(solve_decision).

#[global] Instance Requirements_eq_dec : EqDecision Requirements :=
  ltac:(solve_decision).

(** ** Properties the statements below are phrased with *)

Section Vocabulary.

Context {World VersionResolver Prefixes Values LibFunc : Type}.
Context `{!Externals World VersionResolver Prefixes Values LibFunc}.

(** The four ways in which an entry of the requirements can make
    [verifyRequirementsYAML] return, in the order in which the loop tests
    them. *)
Inductive FailureKind : Type :=
| MissingRepository
| NoPrefixForRepository
| CatalogError
| NoVersionFound.

Definition failure (resolver : option VersionResolver)
    (prefixes : Prefixes) (dep : Dependency) : option FailureKind :=
  if decide (Version dep = "") then
    if decide (Repository dep = "") then Some MissingRepository
    else
      let prefix := PrefixForURL prefixes (Repository dep) in
      if decide (prefix = "") then Some NoPrefixForRepository
      else
        match StableVersionNumber resolver KindChart
                (prefix +:+ "/" +:+ Name dep) with
        | (_, Some _) => Some CatalogError
        | (v, None) => if decide (v = "") then Some NoVersionFound else None
        end
  else None.

(** The chart name the loop builds for an entry, and the lookup it makes
    with it. *)
Definition fullChartName (prefixes : Prefixes) (dep : Dependency)
  : string :=
  PrefixForURL prefixes (Repository dep) +:+ "/" +:+ Name dep.

Definition lookupOf (resolver : option VersionResolver)
    (prefixes : Prefixes) (dep : Dependency)
  : option VersionResolver * VersionKind * string :=
  (resolver, KindChart, fullChartName prefixes dep).

(** The lookup key as the spec words it: the prefix joined with the
    effective name, the alias when there is one. *)
Definition qualifiedName (prefixes : Prefixes) (dep : Dependency)
  : string :=
  PrefixForURL prefixes (Repository dep) +:+ "/" +:+ displayName dep.

(** The file store keeps what is saved: a document saved without error is
    the document a later load of the same file answers. *)
Definition load_after_save : Prop :=
  ∀ fileName req w w',
    helm_SaveFile fileName req w = (w', None) →
    helm_LoadRequirementsFile fileName w' = (req, None).

(** The lookups among a sequence of calls, in order: receiver, kind and
    name of each call of [StableVersionNumber]. *)
Definition lookups (evs : list (Event VersionResolver Values))
  : list (option VersionResolver * VersionKind * string) :=
  omap (λ e, match e with
             | StableVersionNumberCall r k n => Some (r, k, n)
             | _ => None
             end) evs.

Definition isSaveFileCall (e : Event VersionResolver Values) : bool :=
  match e with SaveFileCall _ _ => true | _ => false end.

Definition isCreateVersionResolverCall (e : Event VersionResolver Values)
  : bool :=
  match e with CreateVersionResolverCall _ _ => true | _ => false end.

Definition isMarshalCall (e : Event VersionResolver Values) : bool :=
  match e with MarshalCall _ => true | _ => false end.

End Vocabulary.

Section Outcomes.

Context {World VersionResolver Prefixes Values LibFunc : Type}.
Context `{!Externals World VersionResolver Prefixes Values LibFunc}.

(** The existence check of a path answers that the file is there. *)
Definition found (path : string) (w : World) : bool :=
  match util_FileExists path w with
  | (true, None) => true
  | _ => false
  end.

(** An entry as the catalog resolves it: an entry without a version takes
    the version the catalog answers for its chart, another entry stays. *)
Definition resolved (resolver : option VersionResolver)
    (prefixes : Prefixes) (dep : Dependency) : Dependency :=
  if decide (Version dep = "") then
    set_Version
      (StableVersionNumber resolver KindChart
         (fullChartName prefixes dep)).1 dep
  else dep.

(** Two states of one entry: the same but for a version that was missing
    and has been set. *)
Definition versionSet (dep dep' : Dependency) : Prop :=
  Name dep' = Name dep ∧
  Repository dep' = Repository dep ∧
  Alias dep' = Alias dep ∧
  (Version dep' = Version dep ∨ (Version dep = "" ∧ Version dep' ≠ "")).

(** The documents saved among a sequence of calls, in order, each with
    the name of its file. *)
Definition saves (evs : list (Event VersionResolver Values))
  : list (string * Requirements) :=
  omap (λ e, match e with
             | SaveFileCall f r => Some (f, r)
             | _ => None
             end) evs.

Definition isLoadRequirementsFileCall (e : Event VersionResolver Values)
  : bool :=
  match e with LoadRequirementsFileCall _ => true | _ => false end.

End Outcomes.

(** ** A small concrete world

    Stand-ins for the collaborators, small enough to run: the file store is
    a finite map of requirements documents next to a list of other files
    and a list of paths whose existence check fails; a resolver is a
    finite catalog of chart versions together with its repository
    prefixes; values are the bytes themselves. *)

Module Sample.

Record Catalog : Type := {
  charts : gmap string string;
  broken : list string;
  repositories : gmap string string
}.

Record Disk : Type := {
  documents : gmap string Requirements;
  others : list string;
  unreadable : list string;
  templates : gmap string bytes;
  streams : gmap string Catalog
}.

Definition stat (path : string) (d : Disk) : bool * option error :=
  if decide (path ∈ unreadable d) then
    (false, Some (Errorf ("stat " +:+ path +:+ ": too many levels of symbolic links")))
  else
    (bool_decide (is_Some (documents d !! path)) ||
     bool_decide (path ∈ others d) ||
     bool_decide (is_Some (templates d !! path)), None).

Definition load (fileName : string) (d : Disk) : Requirements * option error :=
  if decide (fileName ∈ unreadable d) then
    ({| Dependencies := [] |}, Some (Errorf ("open " +:+ fileName)))
  else
    (default {| Dependencies := [] |} (documents d !! fileName), None).

Definition save (fileName : string) (req : Requirements) (d : Disk)
  : Disk * option error :=
  if decide (fileName ∈ unreadable d) then
    (d, Some (Errorf ("open " +:+ fileName)))
  else
    ({| documents := <[fileName := req]> (documents d);
        others := others d; unreadable := unreadable d;
        templates := templates d; streams := streams d |}, None).

Definition clone (url ref : string) (d : Disk)
  : Disk * (option Catalog * option error) :=
  match streams d !! (url +:+ "@" +:+ ref) with
  | Some c => (d, (Some c, None))
  | None => (d, (None, Some (Errorf ("cannot clone " +:+ url))))
  end.

Definition stable (resolver : option Catalog) (kind : VersionKind)
    (name : string) : string * option error :=
  match resolver with
  | None => ("", Some (Errorf "no version stream"))
  | Some c =>
      if decide (kind = "charts") then
        if decide (name ∈ broken c) then
          ("", Some (Errorf ("cannot read " +:+ name)))
        else (default "" (charts c !! name), None)
      else ("", Some (Errorf ("unknown kind " +:+ kind)))
  end.

Definition prefixesOf (resolver : option Catalog)
  : gmap string string * option error :=
  match resolver with
  | None => (∅, Some (Errorf "no version stream"))
  | Some c => (repositories c, None)
  end.

Definition render (templateFile : string) (params : bytes)
    (funcMap : gmap string (TemplateFunc Catalog bytes Empty_set))
    (requirements : RequirementsConfig) (d : Disk) : bytes * option error :=
  match templates d !! templateFile with
  | Some b => (b, None)
  | None => ([], Some (Errorf ("cannot parse " +:+ templateFile)))
  end.

(** The overrides of gke ask the version stream for the chart of nginx;
    the other templates ask for nothing. *)
Definition asks (templateFile : string) (params : bytes)
    (funcMap : gmap string (TemplateFunc Catalog bytes Empty_set))
    (requirements : RequirementsConfig) (d : Disk) : list (string * string) :=
  if decide (templateFile = "overrides/gke/values.tmpl.yaml") then
    [("charts", "stable/nginx")]
  else [].

(** A document parses unless it starts with a tab. *)
Definition parse (data : bytes) : bytes * option error :=
  match data with
  | Byte.x09 :: _ => ([], Some (Errorf "yaml: found character that cannot start any token"))
  | _ => (data, None)
  end.

#[global] Instance externals
  : Externals Disk Catalog (gmap string string) bytes Empty_set := {
  KindChart := "charts";
  SecretsFileName := "secrets.yaml";
  RequirementsFileName := "requirements.yaml";
  filepath_Join := λ parts, foldr (λ p acc, if decide (acc = "") then p else p +:+ "/" +:+ acc) "" parts;
  util_ColorInfo := λ s, s;
  util_FileExists := stat;
  helm_LoadRequirementsFile := load;
  helm_SaveFile := save;
  CreateVersionResolver := clone;
  StableVersionNumber := stable;
  GetRepositoryPrefixes := prefixesOf;
  PrefixForURL := λ prefixes u, default "" (prefixes !! u);
  helm_NewFunctionMap := ∅;
  helm_ReadValuesYamlFileTemplateOutput := render;
  helm_versionStreamCalls := asks;
  helm_LoadValues := parse;
  util_CombineMapTrees := λ values overrides, values ++ overrides;
  yaml_Marshal := λ values, (values, None)
}.

Definition nginx : Dependency :=
  {| Name := "nginx"; Version := "";
     Repository := "https://charts.example.com"; Alias := "" |}.

Definition web : Dependency :=
  {| Name := "nginx"; Version := "";
     Repository := "https://charts.example.com"; Alias := "web" |}.

Definition redis : Dependency :=
  {| Name := "redis"; Version := "5.0.1";
     Repository := "https://charts.example.com"; Alias := "" |}.

Definition orphan : Dependency :=
  {| Name := "orphan"; Version := ""; Repository := ""; Alias := "" |}.

Definition stranger : Dependency :=
  {| Name := "stranger"; Version := "";
     Repository := "https://elsewhere.example.com"; Alias := "" |}.

Definition catalog : Catalog :=
  {| charts := {[ "stable/nginx" := "1.2.3" ]};
     broken := ["stable/flaky"];
     repositories := {[ "https://charts.example.com" := "stable" ]} |}.

Definition disk (deps : list Dependency) : Disk :=
  {| documents := {[ "chart/requirements.yaml" := {| Dependencies := deps |} ]};
     others := ["chart/values.yaml"; "chart/myvalues.yaml"];
     unreadable := ["chart/secrets.yaml"];
     templates := {[ "overrides/gke/values.tmpl.yaml" := [Byte.x61; Byte.x3a; Byte.x20; Byte.x31];
                     "overrides/eks/values.tmpl.yaml" := [] ]};
     streams := {[ "https://github.com/jenkins-x/jenkins-x-versions.git@master" := catalog ]} |}.

Definition file : string := "chart/requirements.yaml".
Definition resolver : option Catalog := Some catalog.
Definition prefixes : gmap string string := repositories catalog.

Definition fresh (deps : list Dependency) : State Disk Catalog :=
  {| Dir := "chart"; versionResolver := None; world := disk deps |}.

(** A chart directory in which every existence check succeeds. *)
Definition tidy : State Disk Catalog :=
  {| Dir := "chart"; versionResolver := None;
     world :=
       {| documents := ∅;
          others := ["chart/values.yaml"; "chart/myvalues.yaml"];
          unreadable := []; templates := ∅; streams := ∅ |} |}.

Definition config (provider : string) : RequirementsConfig :=
  {| Cluster := {| Provider := provider |};
     VersionStream :=
       {| URL := "https://github.com/jenkins-x/jenkins-x-versions.git";
          Ref := "master" |} |}.


(** The same collaborators over a file store that cannot be written and a
    version stream that has no file of repository prefixes. *)
Definition degraded
  : Externals Disk Catalog (gmap string string) bytes Empty_set := {|
  KindChart := "charts";
  SecretsFileName := "secrets.yaml";
  RequirementsFileName := "requirements.yaml";
  filepath_Join := filepath_Join (Externals := externals);
  util_ColorInfo := λ s, s;
  util_FileExists := stat;
  helm_LoadRequirementsFile := load;
  helm_SaveFile := λ fileName req d,
    (d, Some (Errorf ("open " +:+ fileName +:+ ": read-only file system")));
  CreateVersionResolver := clone;
  StableVersionNumber := stable;
  GetRepositoryPrefixes := λ _,
    (∅, Some (Errorf "open charts/repositories.yml: no such file or directory"));
  PrefixForURL := λ prefixes u, default "" (prefixes !! u);
  helm_NewFunctionMap := ∅;
  helm_ReadValuesYamlFileTemplateOutput := render;
  helm_versionStreamCalls := asks;
  helm_LoadValues := parse;
  util_CombineMapTrees := λ values overrides, values ++ overrides;
  yaml_Marshal := λ values, (values, None)
|}.


(** A configuration whose version stream cannot be cloned. *)
Definition unreachable : RequirementsConfig :=
  {| Cluster := {| Provider := "gke" |};
     VersionStream :=
       {| URL := "https://git.example.com/versions.git"; Ref := "v1" |} |}.

(** An entry whose chart the sample catalog cannot read. *)
Definition flaky : Dependency :=
  {| Name := "flaky"; Version := "";
     Repository := "https://charts.example.com"; Alias := "cache" |}.

End Sample.

(** * Properties *)

Section Properties.

Context {World VersionResolver Prefixes Values LibFunc : Type}.
Context `{!Externals World VersionResolver Prefixes Values LibFunc}.

Implicit Types s : State World VersionResolver.
Implicit Types resolver : option VersionResolver.
Implicit Types prefixes : Prefixes.
Implicit Types dep : Dependency.
Implicit Types deps : list Dependency.

(** ** discoverValuesFiles *)

(** The paths the loop builds from the names it is given. *)
Lemma discoverValuesFiles_loop_ok dir names acc s :
  (∀ name, name ∈ names →
     (util_FileExists (filepath_Join [dir; name]) (world s)).2 = None) →
  discoverValuesFiles_loop dir names acc s =
    ((acc ++ filter (λ p, (util_FileExists p (world s)).1 = true)
               ((λ name, filepath_Join [dir; name]) <$> names), None),
     s, FileExistsCall <$> ((λ name, filepath_Join [dir; name]) <$> names)).
Proof.
  revert acc. induction names as [|name names IH]; intros acc Hok.
  - cbn. by rewrite app_nil_r.
  - cbn [discoverValuesFiles_loop]. unfold bind, FileExists.
    pose proof (Hok name (list_elem_of_here _ _)) as Hname.
    destruct (util_FileExists _ (world s)) as [b err] eqn:Hstat.
    cbn in Hname. subst err.
    rewrite IH by (intros n Hn; apply Hok; by apply list_elem_of_further).
    rewrite !fmap_cons, filter_cons, Hstat. cbn.
    destruct b; cbn.
    + rewrite decide_True by done. by rewrite <- app_assoc.
    + rewrite decide_False by done. done.
Qed.

(** A failing check ends the loop: what was found before it is answered
    with the error, and the names after it are not checked. *)
Lemma discoverValuesFiles_loop_error dir name names acc s b e :
  util_FileExists (filepath_Join [dir; name]) (world s) = (b, Some e) →
  discoverValuesFiles_loop dir (name :: names) acc s =
    ((acc, Some e), s, [FileExistsCall (filepath_Join [dir; name])]).
Proof.
  intros Hstat. cbn [discoverValuesFiles_loop]. unfold bind, FileExists.
  by rewrite Hstat.
Qed.

(** C9, as amended: when none of the three existence checks fails,
    [discoverValuesFiles] checks values.yaml, the secrets file and
    myvalues.yaml under the directory in that order, and answers the paths
    of all of those that exist, in that order, with no error. *)
Theorem discoverValuesFiles_all_existing dir s :
  let paths := (λ name, filepath_Join [dir; name]) <$>
                 ["values.yaml"; SecretsFileName; "myvalues.yaml"] in
  (∀ p, p ∈ paths → (util_FileExists p (world s)).2 = None) →
  result (discoverValuesFiles dir s) =
    (filter (λ p, (util_FileExists p (world s)).1 = true) paths, None) ∧
  events (discoverValuesFiles dir s) = FileExistsCall <$> paths ∧
  final (discoverValuesFiles dir s) = s.
Proof.
  intros paths Hok. unfold discoverValuesFiles.
  rewrite discoverValuesFiles_loop_ok.
  - done.
  - intros name Hname. apply Hok. unfold paths.
    by apply (list_elem_of_fmap_2 (λ name, filepath_Join [dir; name])).
Qed.

(** ** verifyRequirementsYAML: one turn of the loop *)

Ltac unfold_turn :=
  unfold verifyRequirementsYAML_dep, callStableVersionNumber, logf, emit,
    bind, ret.

(** An entry that has a version: the turn does nothing. *)
Lemma verifyRequirementsYAML_dep_versioned resolver prefixes fileName dep s :
  Version dep ≠ "" →
  verifyRequirementsYAML_dep resolver prefixes fileName dep s =
    ((dep, false, None), s, []).
Proof. intros Hv. unfold_turn. by rewrite decide_False. Qed.

(** An entry that fails: the turn returns an error and leaves the entry as
    it was; the catalog is asked only once repository and prefix are
    there. *)
Lemma verifyRequirementsYAML_dep_failure resolver prefixes fileName dep s k :
  failure resolver prefixes dep = Some k →
  ∃ e, verifyRequirementsYAML_dep resolver prefixes fileName dep s =
    ((dep, false, Some e), s,
     match k with
     | MissingRepository | NoPrefixForRepository => []
     | CatalogError | NoVersionFound =>
         [StableVersionNumberCall resolver KindChart
            (PrefixForURL prefixes (Repository dep) +:+ "/" +:+ Name dep)]
     end).
Proof.
  unfold failure. unfold_turn. intros Hk.
  repeat case_decide; try discriminate; simplify_eq; eauto.
  all: destruct (StableVersionNumber _ _ _) as [v [e|]] eqn:Hsvn;
    simplify_eq; eauto.
  case_decide; simplify_eq; eauto.
Qed.

(** An entry without a version that does not fail: the turn asks the
    catalog for the chart named by prefix and name, and sets the version it
    answers. *)
Lemma verifyRequirementsYAML_dep_resolved resolver prefixes fileName dep s :
  Version dep = "" →
  failure resolver prefixes dep = None →
  ∃ v msg,
    StableVersionNumber resolver KindChart
      (PrefixForURL prefixes (Repository dep) +:+ "/" +:+ Name dep)
      = (v, None) ∧
    v ≠ "" ∧
    verifyRequirementsYAML_dep resolver prefixes fileName dep s =
      ((set_Version v dep, true, None), s,
       [StableVersionNumberCall resolver KindChart
          (PrefixForURL prefixes (Repository dep) +:+ "/" +:+ Name dep);
        LogCall Debug msg]).
Proof.
  unfold failure. unfold_turn. intros Hv Hk.
  repeat case_decide; try discriminate; try done.
  destruct (StableVersionNumber _ _ _) as [v [e|]] eqn:Hsvn; try discriminate.
  case_decide; try discriminate. eauto 10.
Qed.

(** The three cases together. *)
Lemma verifyRequirementsYAML_dep_cases resolver prefixes fileName dep s :
  (Version dep ≠ "" ∧ failure resolver prefixes dep = None ∧
   verifyRequirementsYAML_dep resolver prefixes fileName dep s =
     ((dep, false, None), s, [])) ∨
  (Version dep = "" ∧ ∃ k e ev,
     failure resolver prefixes dep = Some k ∧
     verifyRequirementsYAML_dep resolver prefixes fileName dep s =
       ((dep, false, Some e), s, ev) ∧
     ∀ x, x ∈ ev →
       x = StableVersionNumberCall resolver KindChart
             (PrefixForURL prefixes (Repository dep) +:+ "/" +:+ Name dep)) ∨
  (Version dep = "" ∧ failure resolver prefixes dep = None ∧ ∃ v msg,
     v ≠ "" ∧
     verifyRequirementsYAML_dep resolver prefixes fileName dep s =
       ((set_Version v dep, true, None), s,
        [StableVersionNumberCall resolver KindChart
           (PrefixForURL prefixes (Repository dep) +:+ "/" +:+ Name dep);
         LogCall Debug msg])).
Proof.
  destruct (decide (Version dep = "")) as [Hv|Hv].
  - destruct (failure resolver prefixes dep) as [k|] eqn:Hk.
    + right; left. split; [done|].
      destruct (verifyRequirementsYAML_dep_failure resolver prefixes
                  fileName dep s k Hk) as [e He].
      eexists k, e, _. split_and!; [done|exact He|].
      intros x Hx.
      destruct k; first [by apply elem_of_nil in Hx
                        |by apply list_elem_of_singleton in Hx].
    + right; right.
      destruct (verifyRequirementsYAML_dep_resolved resolver prefixes
                  fileName dep s Hv Hk) as (v & msg & _ & Hne & Hrun).
      eauto 10.
  - left. split_and!; [done| |by apply verifyRequirementsYAML_dep_versioned].
    unfold failure. by rewrite decide_False.
Qed.

(** ** verifyRequirementsYAML: the loop *)

(** The loop at an entry, by the three cases of its turn.  [x] stands for
    the loop over the entries that follow. *)
Lemma verifyRequirementsYAML_loop_versioned
    resolver prefixes fileName dep rest m s :
  Version dep ≠ "" →
  let x := verifyRequirementsYAML_loop resolver prefixes fileName rest m s in
  verifyRequirementsYAML_loop resolver prefixes fileName (dep :: rest) m s =
    ((dep :: (result x).1.1, (result x).1.2, (result x).2),
     final x, events x).
Proof.
  intros Hv x. cbn [verifyRequirementsYAML_loop]. unfold bind at 1.
  rewrite verifyRequirementsYAML_dep_versioned by done.
  rewrite orb_false_r. unfold bind, ret. fold x.
  destruct x as [[[[rest' m'] err'] s'] ev']. cbn. by rewrite app_nil_r.
Qed.

Lemma verifyRequirementsYAML_loop_failure
    resolver prefixes fileName dep rest m s k :
  failure resolver prefixes dep = Some k →
  ∃ e,
    verifyRequirementsYAML_loop resolver prefixes fileName (dep :: rest) m s =
      ((dep :: rest, m, Some e), s,
       match k with
       | MissingRepository | NoPrefixForRepository => []
       | CatalogError | NoVersionFound =>
           [StableVersionNumberCall resolver KindChart
              (PrefixForURL prefixes (Repository dep) +:+ "/" +:+ Name dep)]
       end).
Proof.
  intros Hk.
  destruct (verifyRequirementsYAML_dep_failure resolver prefixes fileName
              dep s k Hk) as [e He].
  exists e. cbn [verifyRequirementsYAML_loop]. unfold bind at 1.
  rewrite He. unfold ret. by rewrite orb_false_r, app_nil_r.
Qed.

Lemma verifyRequirementsYAML_loop_resolved
    resolver prefixes fileName dep rest m s :
  Version dep = "" →
  failure resolver prefixes dep = None →
  ∃ v msg,
    v ≠ "" ∧
    StableVersionNumber resolver KindChart
      (PrefixForURL prefixes (Repository dep) +:+ "/" +:+ Name dep)
      = (v, None) ∧
    let x :=
      verifyRequirementsYAML_loop resolver prefixes fileName rest true s in
    verifyRequirementsYAML_loop resolver prefixes fileName (dep :: rest) m s =
      ((set_Version v dep :: (result x).1.1, (result x).1.2, (result x).2),
       final x,
       StableVersionNumberCall resolver KindChart
         (PrefixForURL prefixes (Repository dep) +:+ "/" +:+ Name dep)
       :: LogCall Debug msg :: events x).
Proof.
  intros Hv Hk.
  destruct (verifyRequirementsYAML_dep_resolved resolver prefixes fileName
              dep s Hv Hk) as (v & msg & Hsvn & Hne & Hrun).
  exists v, msg. split_and!; [done..|]. intros x.
  cbn [verifyRequirementsYAML_loop]. unfold bind at 1.
  rewrite Hrun. rewrite orb_true_r. unfold bind, ret. fold x.
  destruct x as [[[[rest' m'] err'] s'] ev']. cbn. by rewrite app_nil_r.
Qed.

(** Induction over the loop: a property of the loop's outcome holds when it
    holds at the end of the entries and is kept by each of the three kinds
    of turn. *)
Lemma verifyRequirementsYAML_loop_ind resolver prefixes fileName s
    (P : list Dependency → bool →
         list Dependency * bool * option error →
         list (Event VersionResolver Values) → Prop) :
  (∀ m, P [] m ([], m, None) []) →
  (∀ dep rest m rest' m' err ev,
     Version dep ≠ "" →
     verifyRequirementsYAML_loop resolver prefixes fileName rest m s =
       ((rest', m', err), s, ev) →
     P rest m (rest', m', err) ev →
     P (dep :: rest) m (dep :: rest', m', err) ev) →
  (∀ dep rest m k e,
     Version dep = "" →
     failure resolver prefixes dep = Some k →
     P (dep :: rest) m (dep :: rest, m, Some e)
       match k with
       | MissingRepository | NoPrefixForRepository => []
       | CatalogError | NoVersionFound =>
           [StableVersionNumberCall resolver KindChart
              (PrefixForURL prefixes (Repository dep) +:+ "/" +:+ Name dep)]
       end) →
  (∀ dep rest m v msg rest' m' err ev,
     Version dep = "" →
     failure resolver prefixes dep = None →
     v ≠ "" →
     StableVersionNumber resolver KindChart
       (PrefixForURL prefixes (Repository dep) +:+ "/" +:+ Name dep)
       = (v, None) →
     verifyRequirementsYAML_loop resolver prefixes fileName rest true s =
       ((rest', m', err), s, ev) →
     P rest true (rest', m', err) ev →
     P (dep :: rest) m (set_Version v dep :: rest', m', err)
       (StableVersionNumberCall resolver KindChart
          (PrefixForURL prefixes (Repository dep) +:+ "/" +:+ Name dep)
        :: LogCall Debug msg :: ev)) →
  ∀ deps m,
    let x := verifyRequirementsYAML_loop resolver prefixes fileName deps m s in
    final x = s ∧ P deps m (result x) (events x).
Proof.
  intros Hnil Hversioned Hfailure Hresolved.
  induction deps as [|dep rest IH]; intros m.
  - cbn. split; [done|]. apply Hnil.
  - destruct (decide (Version dep = "")) as [Hv|Hv].
    + destruct (failure resolver prefixes dep) as [k|] eqn:Hk.
      * destruct (verifyRequirementsYAML_loop_failure resolver prefixes
                    fileName dep rest m s k Hk) as [e He].
        cbv zeta. rewrite He. split; [done|]. by apply Hfailure.
      * destruct (verifyRequirementsYAML_loop_resolved resolver prefixes
                    fileName dep rest m s Hv Hk)
          as (v & msg & Hne & Hsvn & Hrun).
        cbv zeta in *. rewrite Hrun.
        destruct (IH true) as [Hfinal HP]. split; [done|].
        cbn [result events fst snd].
        destruct (verifyRequirementsYAML_loop _ _ _ rest true s)
          as [[[[rest' m'] err'] s'] ev'] eqn:Hrest.
        cbn in Hfinal, HP |- *. subst s'. by apply Hresolved.
    + pose proof (verifyRequirementsYAML_loop_versioned resolver prefixes
                    fileName dep rest m s Hv) as Hrun.
      cbv zeta in *. rewrite Hrun.
      destruct (IH m) as [Hfinal HP]. split; [done|].
      cbn [result events fst snd].
      destruct (verifyRequirementsYAML_loop _ _ _ rest m s)
        as [[[[rest' m'] err'] s'] ev'] eqn:Hrest.
      cbn in Hfinal, HP |- *. subst s'. by apply Hversioned.
Qed.

Lemma verifyRequirementsYAML_loop_final resolver prefixes fileName deps m s :
  final (verifyRequirementsYAML_loop resolver prefixes fileName deps m s) = s.
Proof.
  by destruct (verifyRequirementsYAML_loop_ind resolver prefixes fileName s
                 (λ _ _ _ _, True)) with deps m.
Qed.

(** The loop in the shape the lemmas below take it apart. *)
Lemma verifyRequirementsYAML_loop_run resolver prefixes fileName deps m s :
  ∃ deps' m' err ev,
    verifyRequirementsYAML_loop resolver prefixes fileName deps m s =
      ((deps', m', err), s, ev).
Proof.
  pose proof (verifyRequirementsYAML_loop_final resolver prefixes fileName
                deps m s) as Hfinal.
  destruct (verifyRequirementsYAML_loop _ _ _ deps m s)
    as [[[[deps' m'] err] s'] ev].
  cbn in Hfinal. subst s'. eauto.
Qed.

(** Entries keep their places, and an entry that came with a version
    leaves the loop as it came. *)
Lemma verifyRequirementsYAML_loop_entries
    resolver prefixes fileName deps m s deps' m' err ev :
  verifyRequirementsYAML_loop resolver prefixes fileName deps m s =
    ((deps', m', err), s, ev) →
  length deps' = length deps ∧
  ∀ i dep, deps !! i = Some dep → Version dep ≠ "" → deps' !! i = Some dep.
Proof.
  intros Hrun.
  destruct (verifyRequirementsYAML_loop_ind resolver prefixes fileName s
    (λ deps _ r _,
       length r.1.1 = length deps ∧
       ∀ i dep, deps !! i = Some dep → Version dep ≠ "" →
                r.1.1 !! i = Some dep)) with deps m as [_ HP].
  - done.
  - intros dep rest ? rest' ? ? ? Hv _ [Hlen Hkeep]. cbn in *.
    split; [by rewrite Hlen|]. intros [|i] d Hi Hd; cbn in *; eauto.
  - intros dep rest ? k e Hv Hk. cbn. done.
  - intros dep rest ? v msg rest' ? ? ? Hv _ _ _ _ [Hlen Hkeep]. cbn in *.
    split; [by rewrite Hlen|]. intros [|i] d Hi Hd; cbn in *; eauto.
    congruence.
  - by rewrite Hrun in HP.
Qed.

(** The loop calls nothing but the catalog and the logger. *)
Lemma verifyRequirementsYAML_loop_events
    resolver prefixes fileName deps m s x :
  x ∈ events (verifyRequirementsYAML_loop resolver prefixes fileName deps m s) →
  (∃ name, x = StableVersionNumberCall resolver KindChart name) ∨
  (∃ msg, x = LogCall Debug msg).
Proof.
  destruct (verifyRequirementsYAML_loop_ind resolver prefixes fileName s
    (λ _ _ _ ev, ∀ x, x ∈ ev →
       (∃ name, x = StableVersionNumberCall resolver KindChart name) ∨
       (∃ msg, x = LogCall Debug msg))) with deps m as [_ HP]; [..|by eauto].
  - intros _ y Hy. by apply elem_of_nil in Hy.
  - done.
  - intros dep rest _ k _ _ _ y Hy.
    destruct k; first [by apply elem_of_nil in Hy
                      |apply list_elem_of_singleton in Hy; eauto].
  - intros dep rest _ v msg _ _ _ ev _ _ _ _ _ IH y Hy.
    apply elem_of_cons in Hy as [->|Hy]; [eauto|].
    apply elem_of_cons in Hy as [->|Hy]; eauto.
Qed.

Lemma verifyRequirementsYAML_loop_no_save
    resolver prefixes fileName deps m s f r :
  SaveFileCall f r ∉
    events (verifyRequirementsYAML_loop resolver prefixes fileName deps m s).
Proof.
  intros Hin.
  by destruct (verifyRequirementsYAML_loop_events _ _ _ _ _ _ _ Hin)
    as [[? ?]|[? ?]].
Qed.

(** A loop that ends without an error met no failing entry, left every
    entry with a version, and asked the catalog once for each entry that
    came without one, in the order of the document. *)
Lemma verifyRequirementsYAML_loop_completed
    resolver prefixes fileName deps m s deps' m' ev :
  verifyRequirementsYAML_loop resolver prefixes fileName deps m s =
    ((deps', m', None), s, ev) →
  Forall (λ dep, failure resolver prefixes dep = None) deps ∧
  Forall (λ dep, Version dep ≠ "") deps' ∧
  lookups ev =
    lookupOf resolver prefixes <$> filter (λ dep, Version dep = "") deps.
Proof.
  intros Hrun.
  destruct (verifyRequirementsYAML_loop_ind resolver prefixes fileName s
    (λ deps _ r ev,
       r.2 = None →
       Forall (λ dep, failure resolver prefixes dep = None) deps ∧
       Forall (λ dep, Version dep ≠ "") r.1.1 ∧
       lookups ev =
         lookupOf resolver prefixes <$> filter (λ dep, Version dep = "") deps))
    with deps m as [_ HP].
  - done.
  - intros dep rest ? rest' ? err ? Hv _ IH Herr. cbn [fst snd] in *.
    destruct (IH Herr) as (Hpass & Hall & Hlook).
    split_and!.
    + constructor; [|done]. unfold failure. by rewrite decide_False.
    + by constructor.
    + by rewrite filter_cons_False.
  - done.
  - intros dep rest ? v msg rest' ? err ev0 Hv Hk Hne _ _ IH Herr. cbn [fst snd] in *.
    destruct (IH Herr) as (Hpass & Hall & Hlook).
    split_and!.
    + by constructor.
    + by constructor.
    + rewrite filter_cons_True by done. rewrite fmap_cons.
      unfold lookups in *. cbn [omap list_omap]. by rewrite Hlook.
  - rewrite Hrun in HP. by apply HP.
Qed.

(** The flag the loop answers: set on entry, or an entry was changed. *)
Lemma verifyRequirementsYAML_loop_modified
    resolver prefixes fileName deps m s deps' m' err ev :
  verifyRequirementsYAML_loop resolver prefixes fileName deps m s =
    ((deps', m', err), s, ev) →
  m' = true ↔ m = true ∨ deps' ≠ deps.
Proof.
  intros Hrun.
  destruct (verifyRequirementsYAML_loop_ind resolver prefixes fileName s
    (λ deps m r _, r.1.2 = true ↔ m = true ∨ r.1.1 ≠ deps))
    with deps m as [_ HP].
  - intros m0. cbn. split; [by left|by intros [?|?]].
  - intros dep rest m0 rest' m1 ? ? _ _ IH. cbn in *. rewrite IH.
    split; (intros [?|Hne]; [by left|right; contradict Hne; congruence]).
  - intros dep rest m0 k e _ _. cbn. split; [by left|by intros [?|?]].
  - intros dep rest m0 v msg rest' m1 ? ? Hv _ Hne _ _ IH. cbn in *.
    split; [|intros _; apply IH; by left]. intros _. right. intros [= Heq _].
    apply (f_equal Version) in Heq. cbn in Heq. congruence.
  - by rewrite Hrun in HP.
Qed.

(** Over entries that all have a version the loop does nothing. *)
Lemma verifyRequirementsYAML_loop_noop resolver prefixes fileName deps m s :
  Forall (λ dep, Version dep ≠ "") deps →
  verifyRequirementsYAML_loop resolver prefixes fileName deps m s =
    ((deps, m, None), s, []).
Proof.
  induction 1 as [|dep rest Hv _ IH]; [done|].
  rewrite verifyRequirementsYAML_loop_versioned by done. by rewrite IH.
Qed.

(** The lookups of any run of the loop, completed or not, are the first
    ones of that list. *)
Lemma verifyRequirementsYAML_loop_lookups resolver prefixes fileName deps m s :
  lookups (events
    (verifyRequirementsYAML_loop resolver prefixes fileName deps m s))
  `prefix_of`
  lookupOf resolver prefixes <$> filter (λ dep, Version dep = "") deps.
Proof.
  destruct (verifyRequirementsYAML_loop_ind resolver prefixes fileName s
    (λ deps _ _ ev,
       lookups ev `prefix_of`
       lookupOf resolver prefixes <$> filter (λ dep, Version dep = "") deps))
    with deps m as [_ HP]; [..|done].
  - intros _. apply prefix_nil.
  - intros dep rest _ _ _ _ ev Hv _ IH. by rewrite filter_cons_False.
  - intros dep rest _ k _ Hv _. rewrite filter_cons_True by done.
    destruct k; first [apply prefix_nil|apply prefix_cons, prefix_nil].
  - intros dep rest _ v msg _ _ _ ev Hv _ _ _ _ IH.
    rewrite filter_cons_True by done. by apply prefix_cons.
Qed.

(** The loop up to the first entry that fails. *)
Lemma verifyRequirementsYAML_loop_first_failure
    resolver prefixes fileName pre dep post m s k :
  Forall (λ p, failure resolver prefixes p = None) pre →
  failure resolver prefixes dep = Some k →
  ∃ deps' m' ev,
    verifyRequirementsYAML_loop resolver prefixes fileName
      (pre ++ dep :: post) m s =
      ((deps', m',
        (result (verifyRequirementsYAML_dep resolver prefixes fileName
                   dep s)).2), s, ev) ∧
    is_Some (result (verifyRequirementsYAML_dep resolver prefixes fileName
                       dep s)).2 ∧
    lookups ev =
      (lookupOf resolver prefixes <$> filter (λ p, Version p = "") pre) ++
      match k with
      | MissingRepository | NoPrefixForRepository => []
      | CatalogError | NoVersionFound => [lookupOf resolver prefixes dep]
      end.
Proof.
  intros Hpre Hk. revert m.
  induction Hpre as [|p pre Hp _ IH]; intros m.
  - destruct (verifyRequirementsYAML_dep_failure resolver prefixes fileName
                dep s k Hk) as [e He].
    cbn [app verifyRequirementsYAML_loop]. unfold bind at 1.
    rewrite He. unfold ret. cbn [result fst snd].
    eexists _, _, _. split_and!; [done|by eexists|].
    by destruct k.
  - destruct (decide (Version p = "")) as [Hv|Hv].
    + destruct (verifyRequirementsYAML_loop_resolved resolver prefixes
                  fileName p (pre ++ dep :: post) m s Hv Hp)
        as (v & msg & _ & _ & Hrun).
      destruct (IH true) as (deps' & m' & ev & Hrest & Hsome & Hlook).
      cbv zeta in Hrun. rewrite Hrest in Hrun.
      cbn [app]. rewrite Hrun. cbn [result final events fst snd].
      eexists _, _, _. split_and!; [done..|].
      rewrite filter_cons_True by done.
      unfold lookups in *. cbn [omap list_omap]. by rewrite Hlook.
    + pose proof (verifyRequirementsYAML_loop_versioned resolver prefixes
                    fileName p (pre ++ dep :: post) m s Hv) as Hrun.
      destruct (IH m) as (deps' & m' & ev & Hrest & Hsome & Hlook).
      cbv zeta in Hrun. rewrite Hrest in Hrun.
      cbn [app]. rewrite Hrun. cbn [result final events fst snd].
      eexists _, _, _. split_and!; [done..|].
      by rewrite filter_cons_False.
Qed.

(** The calls of the loop do not depend on the entries that have a
    version: without such an entry the loop makes the same calls. *)
Lemma verifyRequirementsYAML_loop_skip
    resolver prefixes fileName deps m s i dep :
  deps !! i = Some dep →
  Version dep ≠ "" →
  events (verifyRequirementsYAML_loop resolver prefixes fileName
            (delete i deps) m s) =
  events (verifyRequirementsYAML_loop resolver prefixes fileName deps m s).
Proof.
  revert i m. induction deps as [|d rest IH]; intros i m Hi Hv; [done|].
  destruct i as [|i]; cbn in Hi.
  - injection Hi as ->. cbn [delete list_delete].
    by rewrite verifyRequirementsYAML_loop_versioned.
  - change (delete (S i) (d :: rest)) with (d :: delete i rest).
    destruct (decide (Version d = "")) as [Hd|Hd].
    + destruct (failure resolver prefixes d) as [k|] eqn:Hk.
      * destruct (verifyRequirementsYAML_loop_failure resolver prefixes
                    fileName d rest m s k Hk) as [e ->].
        by destruct (verifyRequirementsYAML_loop_failure resolver prefixes
                       fileName d (delete i rest) m s k Hk) as [e' ->].
      * destruct (verifyRequirementsYAML_dep_resolved resolver prefixes
                    fileName d s Hd Hk) as (v & msg & _ & _ & Hturn).
        cbn [verifyRequirementsYAML_loop]. unfold bind at 1 3.
        rewrite Hturn. rewrite orb_true_r. unfold bind, ret.
        specialize (IH i true Hi Hv).
        destruct (verifyRequirementsYAML_loop _ _ _ (delete i rest) true s)
          as [[[[? ?] ?] ?] ?],
          (verifyRequirementsYAML_loop _ _ _ rest true s)
          as [[[[? ?] ?] ?] ?].
        cbn in *. by rewrite IH.
    + rewrite !verifyRequirementsYAML_loop_versioned by done.
      cbn [events snd]. by apply IH.
Qed.

(** ** verifyRequirementsYAML: the method *)

Lemma verifyRequirementsYAML_load_error
    resolver prefixes fileName s req e :
  helm_LoadRequirementsFile fileName (world s) = (req, Some e) →
  verifyRequirementsYAML resolver prefixes fileName s =
    (Some (Wrapf e ("failed to load " +:+ fileName)), s,
     [LoadRequirementsFileCall fileName]).
Proof.
  intros Hload. unfold verifyRequirementsYAML, LoadRequirementsFile.
  unfold bind at 1. by rewrite Hload.
Qed.

(** The method after a load without error, by the outcome of the loop. *)
Lemma verifyRequirementsYAML_loaded
    resolver prefixes fileName s req deps' m' err ev :
  helm_LoadRequirementsFile fileName (world s) = (req, None) →
  verifyRequirementsYAML_loop resolver prefixes fileName
    (Dependencies req) false s = ((deps', m', err), s, ev) →
  verifyRequirementsYAML resolver prefixes fileName s =
    match err with
    | Some e => (Some e, s, LoadRequirementsFileCall fileName :: ev)
    | None =>
        if m' then
          let saved := helm_SaveFile fileName
                         {| Dependencies := deps' |} (world s) in
          (match saved.2 with
           | Some e => Some (Wrapf e ("failed to save " +:+ fileName))
           | None => None
           end,
           set_world saved.1 s,
           LoadRequirementsFileCall fileName :: ev ++
           SaveFileCall fileName {| Dependencies := deps' |} ::
           match saved.2 with
           | Some _ => []
           | None =>
               [LogCall Debug
                  ("adding dependency versions to file " +:+ fileName)]
           end)
        else (None, s, LoadRequirementsFileCall fileName :: ev)
    end.
Proof.
  intros Hload Hloop. unfold verifyRequirementsYAML, LoadRequirementsFile.
  unfold bind at 1. rewrite Hload. unfold bind at 1. rewrite Hloop.
  destruct err as [e|]; [unfold ret; by rewrite app_nil_r|].
  destruct m'; [|unfold ret; by rewrite app_nil_r].
  unfold bind, SaveFile, logf, emit, ret.
  destruct (helm_SaveFile _ _ _) as [w [e|]]; cbn; done.
Qed.

(** Whatever is saved is saved under the name of the file that was loaded,
    and is the document as a loop without failure left it, every entry
    with a version. *)
Lemma verifyRequirementsYAML_saves resolver prefixes fileName s f r :
  SaveFileCall f r ∈
    events (verifyRequirementsYAML resolver prefixes fileName s) →
  f = fileName ∧
  Forall (λ dep, Version dep ≠ "") (Dependencies r) ∧
  ∃ req m' ev,
    helm_LoadRequirementsFile fileName (world s) = (req, None) ∧
    verifyRequirementsYAML_loop resolver prefixes fileName
      (Dependencies req) false s = ((Dependencies r, m', None), s, ev) ∧
    Dependencies r ≠ Dependencies req.
Proof.
  destruct (helm_LoadRequirementsFile fileName (world s)) as [req [e|]]
    eqn:Hload.
  { rewrite (verifyRequirementsYAML_load_error _ _ _ _ _ _ Hload).
    cbn. intros Hin. by apply list_elem_of_singleton in Hin. }
  destruct (verifyRequirementsYAML_loop_run resolver prefixes fileName
              (Dependencies req) false s) as (deps' & m' & err & ev & Hloop).
  rewrite (verifyRequirementsYAML_loaded _ _ _ _ _ _ _ _ _ Hload Hloop).
  assert (Hnotin : SaveFileCall f r ∉ ev).
  { pose proof (verifyRequirementsYAML_loop_no_save resolver prefixes
                  fileName (Dependencies req) false s f r) as Hno.
    by rewrite Hloop in Hno. }
  destruct err as [e|]; cbn.
  { intros Hin. apply elem_of_cons in Hin as [?|?]; done. }
  destruct m'; cbn.
  - intros Hin. apply elem_of_cons in Hin as [?|Hin]; [done|].
    apply elem_of_app in Hin as [?|Hin]; [done|].
    apply elem_of_cons in Hin as [Heq|Hin].
    + injection Heq as -> ->. cbn.
      destruct (verifyRequirementsYAML_loop_completed _ _ _ _ _ _ _ _ _ Hloop)
        as (_ & Hall & _).
      split_and!; [done..|]. exists req, true, ev. split_and!; [done..|].
      destruct (verifyRequirementsYAML_loop_modified _ _ _ _ _ _ _ _ _ _ Hloop)
        as [Hmod _].
      by destruct (Hmod eq_refl).
    + destruct (helm_SaveFile _ _ _).2; [by apply elem_of_nil in Hin|].
      by apply list_elem_of_singleton in Hin.
  - intros Hin. apply elem_of_cons in Hin as [?|?]; done.
Qed.

(** C1, as amended: in [verifyRequirementsYAML] the lookups made are, in
    the order of the document, those of its entries without a version, and
    the key of each is the prefix of the entry's repository joined by a
    slash with the entry's name, whatever its alias, with kind chart; a
    run that returns no error makes all of them.  The alias only shows in
    the messages. *)
Theorem lookup_key_is_prefix_and_name resolver prefixes fileName s req :
  helm_LoadRequirementsFile fileName (world s) = (req, None) →
  let run := verifyRequirementsYAML resolver prefixes fileName s in
  let wanted :=
    (λ dep, (resolver, KindChart,
             PrefixForURL prefixes (Repository dep) +:+ "/" +:+ Name dep))
    <$> filter (λ dep, Version dep = "") (Dependencies req) in
  lookups (events run) `prefix_of` wanted ∧
  (result run = None → lookups (events run) = wanted).
Proof.
  intros Hload run wanted.
  destruct (verifyRequirementsYAML_loop_run resolver prefixes fileName
              (Dependencies req) false s) as (deps' & m' & err & ev & Hloop).
  pose proof (verifyRequirementsYAML_loop_lookups resolver prefixes fileName
                (Dependencies req) false s) as Hprefix.
  rewrite Hloop in Hprefix. cbn [events snd] in Hprefix.
  assert (Hlook : lookups (events run) = lookups ev).
  { unfold run.
    rewrite (verifyRequirementsYAML_loaded _ _ _ _ _ _ _ _ _ Hload Hloop).
    destruct err as [e|]; [done|]. destruct m'; [|done].
    cbn [events snd]. unfold lookups. cbn [omap list_omap].
    rewrite omap_app. cbn [omap list_omap].
    by destruct (helm_SaveFile _ _ _).2; cbn; rewrite app_nil_r. }
  rewrite Hlook. split; [done|].
  intros Hok. destruct err as [e|].
  - unfold run in Hok.
    by rewrite (verifyRequirementsYAML_loaded _ _ _ _ _ _ _ _ _ Hload Hloop)
      in Hok.
  - by destruct (verifyRequirementsYAML_loop_completed _ _ _ _ _ _ _ _ _
                   Hloop) as (_ & _ & ->).
Qed.

(** C3: the entries are taken in the order of the document, and at the
    first one that fails (no repository, no prefix, an error of the
    catalog, or no version in the catalog) the method returns that entry's
    error: the catalog has been asked for the entries before it and, when
    the failure is the catalog's, for that entry, and for nothing after
    it; [SaveFile] is not called and the file store is as it was. *)
Theorem first_failure_aborts_without_save
    resolver prefixes fileName s req pre dep post k :
  helm_LoadRequirementsFile fileName (world s) = (req, None) →
  Dependencies req = pre ++ dep :: post →
  Forall (λ p, failure resolver prefixes p = None) pre →
  failure resolver prefixes dep = Some k →
  let run := verifyRequirementsYAML resolver prefixes fileName s in
  is_Some (result run) ∧
  result run =
    (result (verifyRequirementsYAML_dep resolver prefixes fileName dep s)).2 ∧
  final run = s ∧
  (∀ f r, SaveFileCall f r ∉ events run) ∧
  lookups (events run) =
    (lookupOf resolver prefixes <$> filter (λ p, Version p = "") pre) ++
    match k with
    | MissingRepository | NoPrefixForRepository => []
    | CatalogError | NoVersionFound => [lookupOf resolver prefixes dep]
    end.
Proof.
  intros Hload Hsplit Hpre Hk run.
  destruct (verifyRequirementsYAML_loop_first_failure resolver prefixes
              fileName pre dep post false s k Hpre Hk)
    as (deps' & m' & ev & Hloop & [e He] & Hlook).
  rewrite <- Hsplit in Hloop.
  assert (Hno : ∀ f r, SaveFileCall f r ∉ ev).
  { intros f r.
    pose proof (verifyRequirementsYAML_loop_no_save resolver prefixes
                  fileName (Dependencies req) false s f r) as Hno.
    by rewrite Hloop in Hno. }
  unfold run.
  rewrite (verifyRequirementsYAML_loaded _ _ _ _ _ _ _ _ _ Hload Hloop).
  rewrite He. cbn [result final events fst snd].
  split_and!; [by eexists|done..| |done].
  intros f r Hin. apply elem_of_cons in Hin as [?|Hin]; [done|].
  by apply (Hno f r).
Qed.

(** C4: an entry without a version whose repository is empty, or whose
    repository has no prefix (the prefixes answer the empty string for
    it), makes the method return an error; nothing is saved and the file
    store is as it was.  The turn of
    such an entry returns the error without asking the catalog and leaves
    the entry as it is: no repository and no prefix is made up. *)
Theorem missing_repository_or_prefix_fails
    resolver prefixes fileName s req dep :
  helm_LoadRequirementsFile fileName (world s) = (req, None) →
  dep ∈ Dependencies req →
  Version dep = "" →
  Repository dep = "" ∨ PrefixForURL prefixes (Repository dep) = "" →
  let run := verifyRequirementsYAML resolver prefixes fileName s in
  is_Some (result run) ∧
  final run = s ∧
  (∀ f r, SaveFileCall f r ∉ events run) ∧
  ∃ e, verifyRequirementsYAML_dep resolver prefixes fileName dep s =
         ((dep, false, Some e), s, []).
Proof.
  intros Hload Hin Hv Hmissing run.
  assert (Hk : ∃ k, failure resolver prefixes dep = Some k ∧
                    (k = MissingRepository ∨ k = NoPrefixForRepository)).
  { unfold failure. rewrite decide_True by done.
    destruct (decide (Repository dep = "")) as [Hr|Hr]; [eauto|].
    destruct Hmissing as [?|Hp]; [done|].
    rewrite decide_True by done. eauto. }
  destruct Hk as (k & Hk & Hkind).
  destruct (verifyRequirementsYAML_loop_run resolver prefixes fileName
              (Dependencies req) false s) as (deps' & m' & err & ev & Hloop).
  assert (Hno : ∀ f r, SaveFileCall f r ∉ ev).
  { intros f r.
    pose proof (verifyRequirementsYAML_loop_no_save resolver prefixes
                  fileName (Dependencies req) false s f r) as Hno.
    by rewrite Hloop in Hno. }
  destruct err as [e|].
  - unfold run.
    rewrite (verifyRequirementsYAML_loaded _ _ _ _ _ _ _ _ _ Hload Hloop).
    cbn [result final events fst snd]. split_and!; [by eexists|done| |].
    + intros f r Hx. apply elem_of_cons in Hx as [?|Hx]; [done|].
      by apply (Hno f r).
    + destruct (verifyRequirementsYAML_dep_failure resolver prefixes
                  fileName dep s k Hk) as [e' He'].
      exists e'. rewrite He'. by destruct Hkind as [-> | ->].
  - destruct (verifyRequirementsYAML_loop_completed _ _ _ _ _ _ _ _ _ Hloop)
      as (Hpass & _ & _).
    rewrite Forall_forall in Hpass. specialize (Hpass dep Hin). congruence.
Qed.

(** C5: an entry that has a version when the document is loaded is left
    as it is by [verifyRequirementsYAML], whatever the document: it is the
    same in the document the loop leaves, however the loop ends, and in
    any document that is saved; its turn of the loop makes no call; and
    the method makes the calls it would make on the document without that
    entry. *)
Theorem versioned_dependency_untouched
    resolver prefixes fileName s req i dep :
  helm_LoadRequirementsFile fileName (world s) = (req, None) →
  Dependencies req !! i = Some dep →
  Version dep ≠ "" →
  let loop := verifyRequirementsYAML_loop resolver prefixes fileName in
  (result (loop (Dependencies req) false s)).1.1 !! i = Some dep ∧
  (∀ f r,
     SaveFileCall f r ∈
       events (verifyRequirementsYAML resolver prefixes fileName s) →
     Dependencies r !! i = Some dep) ∧
  verifyRequirementsYAML_dep resolver prefixes fileName dep s =
    ((dep, false, None), s, []) ∧
  events (loop (delete i (Dependencies req)) false s) =
    events (loop (Dependencies req) false s).
Proof.
  intros Hload Hi Hv loop. unfold loop.
  destruct (verifyRequirementsYAML_loop_run resolver prefixes fileName
              (Dependencies req) false s) as (deps' & m' & err & ev & Hloop).
  destruct (verifyRequirementsYAML_loop_entries _ _ _ _ _ _ _ _ _ _ Hloop)
    as [_ Hkeep].
  split_and!.
  - rewrite Hloop. cbn. by apply Hkeep.
  - intros f r Hin.
    destruct (verifyRequirementsYAML_saves _ _ _ _ _ _ Hin)
      as (_ & _ & req' & m'' & ev' & Hload' & Hloop' & _).
    assert (req' = req) as -> by congruence.
    destruct (verifyRequirementsYAML_loop_entries _ _ _ _ _ _ _ _ _ _ Hloop')
      as [_ Hkeep'].
    by apply Hkeep'.
  - by apply verifyRequirementsYAML_dep_versioned.
  - by apply verifyRequirementsYAML_loop_skip with dep.
Qed.

(** A run over a document whose entries all have a version: it loads,
    changes nothing and saves nothing. *)
Lemma verifyRequirementsYAML_resolved_document
    resolver prefixes fileName s req :
  helm_LoadRequirementsFile fileName (world s) = (req, None) →
  Forall (λ dep, Version dep ≠ "") (Dependencies req) →
  verifyRequirementsYAML resolver prefixes fileName s =
    (None, s, [LoadRequirementsFileCall fileName]).
Proof.
  intros Hload Hall.
  by rewrite (verifyRequirementsYAML_loaded _ _ _ _ _ _ _ _ _ Hload
                (verifyRequirementsYAML_loop_noop resolver prefixes fileName
                   _ false s Hall)).
Qed.

(** C2, as amended: the requirements file is written back exactly when
    the loop set the version of at least one entry and no entry failed,
    and what is written is the document the loop left.  The resolution is
    idempotent: after a run that returned no error, with a file store that
    keeps what is saved, a second run loads the document the first run
    left, sets no version ([modified] stays false), changes no entry,
    saves nothing and leaves the file store as it is. *)
Theorem write_back_and_idempotence resolver prefixes fileName s req :
  helm_LoadRequirementsFile fileName (world s) = (req, None) →
  let run := verifyRequirementsYAML resolver prefixes fileName s in
  let looped :=
    result (verifyRequirementsYAML_loop resolver prefixes fileName
              (Dependencies req) false s) in
  ((∃ f r, SaveFileCall f r ∈ events run) ↔
   looped.1.1 ≠ Dependencies req ∧ looped.2 = None) ∧
  (∀ f r, SaveFileCall f r ∈ events run →
     f = fileName ∧ Dependencies r = looped.1.1) ∧
  (result run = None →
   load_after_save →
   let again :=
     verifyRequirementsYAML resolver prefixes fileName (final run) in
   result again = None ∧
   final again = final run ∧
   events again = [LoadRequirementsFileCall fileName] ∧
   ∃ doc,
     helm_LoadRequirementsFile fileName (world (final run)) = (doc, None) ∧
     Dependencies doc = looped.1.1 ∧
     verifyRequirementsYAML_loop resolver prefixes fileName
       (Dependencies doc) false (final run) =
       ((Dependencies doc, false, None), final run, [])).
Proof.
  intros Hload run looped.
  destruct (verifyRequirementsYAML_loop_run resolver prefixes fileName
              (Dependencies req) false s) as (deps' & m' & err & ev & Hloop).
  pose proof (verifyRequirementsYAML_loaded _ _ _ _ _ _ _ _ _ Hload Hloop)
    as Hrun. fold run in Hrun.
  pose proof (verifyRequirementsYAML_loop_modified _ _ _ _ _ _ _ _ _ _ Hloop)
    as Hmod.
  assert (Hsaved : ∀ f r, SaveFileCall f r ∈ events run →
            f = fileName ∧ Dependencies r = deps' ∧
            deps' ≠ Dependencies req ∧ err = None).
  { intros f r Hin.
    destruct (verifyRequirementsYAML_saves _ _ _ _ _ _ Hin)
      as (-> & _ & req' & m'' & ev' & Hload' & Hloop' & Hne).
    assert (req' = req) as -> by congruence.
    rewrite Hloop in Hloop'. by simplify_eq. }
  unfold looped. rewrite Hloop. cbn [result fst snd].
  split; [|split].
  - split.
    + intros (f & r & Hin). by destruct (Hsaved f r Hin) as (_ & _ & ? & ?).
    + intros [Hne ->].
      assert (m' = true) as -> by (apply Hmod; by right).
      exists fileName, {| Dependencies := deps' |}.
      rewrite Hrun. cbn [events snd].
      apply list_elem_of_further, elem_of_app. right. apply list_elem_of_here.
  - intros f r Hin. by destruct (Hsaved f r Hin) as (? & ? & _).
  - intros Hok Hkeeps.
    destruct err as [e|]; [by rewrite Hrun in Hok|].
    destruct (verifyRequirementsYAML_loop_completed _ _ _ _ _ _ _ _ _ Hloop)
      as (_ & Hall & _).
    assert (Hdoc : ∃ doc,
              helm_LoadRequirementsFile fileName (world (final run))
                = (doc, None) ∧ Dependencies doc = deps').
    { destruct m'.
      - rewrite Hrun in Hok |- *. cbn [result final fst snd] in Hok |- *.
        destruct (helm_SaveFile fileName {| Dependencies := deps' |} (world s))
          as [w [e|]] eqn:Hsave; [done|].
        exists {| Dependencies := deps' |}. split; [|done].
        cbn. by apply (Hkeeps _ _ _ _ Hsave).
      - rewrite Hrun. cbn [final fst snd]. exists req. split; [done|].
        destruct (decide (deps' = Dependencies req)) as [->|Hne]; [done|].
        assert (false = true) by (apply Hmod; by right). done. }
    destruct Hdoc as (doc & Hload2 & Hdeps).
    rewrite <- Hdeps in Hall.
    rewrite (verifyRequirementsYAML_resolved_document _ _ _ _ _ Hload2 Hall).
    split_and!; [done..|].
    exists doc. split_and!; [done..|].
    by apply verifyRequirementsYAML_loop_noop.
Qed.

(** ** getOrCreateVersionResolver *)

Lemma getOrCreateVersionResolver_stored requirementsConfig s r :
  versionResolver s = Some r →
  getOrCreateVersionResolver requirementsConfig s = ((Some r, None), s, []).
Proof.
  intros Hr. unfold getOrCreateVersionResolver, read_versionResolver.
  unfold bind at 1. rewrite Hr. unfold bind, ret. by rewrite Hr.
Qed.

Lemma getOrCreateVersionResolver_fresh requirementsConfig s :
  versionResolver s = None →
  let vs := VersionStream requirementsConfig in
  let made := CreateVersionResolver (URL vs) (Ref vs) (world s) in
  getOrCreateVersionResolver requirementsConfig s =
    ((made.2.1,
      match made.2.2 with
      | Some e => Some (Wrapf e "failed to create version resolver")
      | None => None
      end),
     set_versionResolver made.2.1 (set_world made.1 s),
     [CreateVersionResolverCall (URL vs) (Ref vs)]).
Proof.
  intros Hr vs made. unfold getOrCreateVersionResolver, read_versionResolver.
  unfold bind at 1. rewrite Hr.
  unfold bind, callCreateVersionResolver, write_versionResolver, ret.
  fold vs. fold made. by destruct made as [w [created [e|]]].
Qed.

(** ** createFuncMap *)

Lemma createFuncMap_stored requirementsConfig s r :
  versionResolver s = Some r →
  createFuncMap requirementsConfig s =
    ((<["versionStream" := Func2 (versionStream (Some r))]>
        helm_NewFunctionMap, None), s, []).
Proof.
  intros Hr. unfold createFuncMap, bind.
  by rewrite (getOrCreateVersionResolver_stored _ _ _ Hr).
Qed.

(** What [createFuncMap] answers when it returns no error: the library's
    functions and, under the name versionStream, the closure over the
    resolver that the receiver now holds. *)
Lemma createFuncMap_ok requirementsConfig s funcMap :
  result (createFuncMap requirementsConfig s) = (funcMap, None) →
  funcMap =
    <["versionStream" :=
        Func2 (versionStream
                 (versionResolver (final (createFuncMap requirementsConfig s))))]>
      helm_NewFunctionMap.
Proof.
  unfold createFuncMap, bind.
  destruct (versionResolver s) as [r|] eqn:Hr.
  - rewrite (getOrCreateVersionResolver_stored _ _ _ Hr). cbn.
    rewrite Hr. congruence.
  - rewrite (getOrCreateVersionResolver_fresh _ _ Hr).
    destruct (CreateVersionResolver _ _ _) as [w [created [e|]]]; cbn;
      congruence.
Qed.



(** ** overwriteProviderValues *)

Ltac unfold_overwrite :=
  unfold overwriteProviderValues, FileExists,
    ReadValuesYamlFileTemplateOutput, LoadValues, CombineMapTrees, Marshal,
    logf, emit, bind, ret.

(** C6: [overwriteProviderValues] answers the values it was given, and no
    error, in each of three cases: the requirements name no provider; the
    provider's file values.tmpl.yaml does not exist; the file exists, the
    function map is built, and rendering the file yields no output. *)
Theorem overwriteProviderValues_unchanged
    requirements requirementsFileName valuesData params providersValuesDir s :
  let provider := Provider (Cluster requirements) in
  let valuesTmplYamlFile :=
    filepath_Join [providersValuesDir; provider; "values.tmpl.yaml"] in
  let made := createFuncMap requirements s in
  provider = "" ∨
  util_FileExists valuesTmplYamlFile (world s) = (false, None) ∨
  (util_FileExists valuesTmplYamlFile (world s) = (true, None) ∧
   (result made).2 = None ∧
   ∃ overrideData,
     helm_ReadValuesYamlFileTemplateOutput valuesTmplYamlFile params
       (result made).1 requirements (world (final made))
       = (overrideData, None) ∧
     length overrideData = 0) →
  result (overwriteProviderValues requirements requirementsFileName
            valuesData params providersValuesDir s) = (valuesData, None).
Proof.
  intros provider valuesTmplYamlFile made Hcase.
  unfold_overwrite. fold provider. fold valuesTmplYamlFile.
  destruct (decide (provider = "")) as [Hp|Hp]; [done|].
  destruct Hcase as [?|[Hstat|(Hstat & Hmade & data & Hrender & Hlen)]];
    [done|by rewrite Hstat|].
  rewrite Hstat. cbn [negb]. fold made.
  destruct made as [[[funcMap err] s1] ev1]. cbn in Hmade, Hrender. subst err.
  rewrite Hrender. by rewrite decide_True.
Qed.

(** C10: when [overwriteProviderValues] returns an error and has not come
    to serialize the merged values, the bytes it returns with the error
    are the values it was given; and the error is that of the existence
    check, of the building of the function map, of the rendering, or of
    the parsing of the values or of the overrides. *)
Theorem overwriteProviderValues_error_keeps_input
    requirements requirementsFileName valuesData params providersValuesDir s
    data e :
  let run := overwriteProviderValues requirements requirementsFileName
               valuesData params providersValuesDir s in
  let valuesTmplYamlFile :=
    filepath_Join [providersValuesDir; Provider (Cluster requirements);
                   "values.tmpl.yaml"] in
  let made := createFuncMap requirements s in
  result run = (data, Some e) →
  existsb isMarshalCall (events run) = false →
  data = valuesData ∧
  ((∃ e0, (util_FileExists valuesTmplYamlFile (world s)).2 = Some e0 ∧
          e = Wrapf e0 ("failed to check if file exists: " +:+
                        valuesTmplYamlFile)) ∨
   (result made).2 = Some e ∨
   (∃ e0, (helm_ReadValuesYamlFileTemplateOutput valuesTmplYamlFile params
             (result made).1 requirements (world (final made))).2 = Some e0 ∧
          e = Wrapf e0
                ("failed to load provider specific helm value overrides " +:+
                 valuesTmplYamlFile)) ∨
   (∃ e0, (helm_LoadValues valuesData).2 = Some e0 ∧
          e = Wrapf e0 "failed to unmarshal the default helm values") ∨
   (∃ overrideData e0,
      (helm_LoadValues overrideData).2 = Some e0 ∧
      e = Wrapf e0 "failed to unmarshal the default helm values")).
Proof.
  intros run valuesTmplYamlFile made. unfold run. unfold_overwrite.
  fold valuesTmplYamlFile.
  destruct (decide (Provider (Cluster requirements) = "")); [done|].
  destruct (util_FileExists valuesTmplYamlFile (world s)) as [b [e0|]];
    [cbn; intros [= <- <-] _; eauto 10|].
  destruct b; cbn [negb]; [|done].
  fold made. destruct made as [[[funcMap [e0|]] s1] ev1];
    [cbn; intros [= <- <-] _; eauto 10|].
  cbn [result final fst snd].
  destruct (helm_ReadValuesYamlFileTemplateOutput _ _ _ _ _)
    as [overrideData [e0|]]; [cbn; intros [= <- <-] _; eauto 10|].
  destruct (decide (length overrideData = 0)); [done|].
  destruct (helm_LoadValues valuesData) as [values [e0|]];
    [cbn; intros [= <- <-] _; eauto 10|].
  destruct (helm_LoadValues overrideData) as [overrides [e0|]] eqn:Hov;
    [cbn; intros [= <- <-] _; split; [done|]; do 4 right;
     exists overrideData, e0; by rewrite Hov|].
  destruct (yaml_Marshal _) as [out err]. cbn. intros _.
  rewrite !existsb_app. cbn. rewrite !existsb_app. cbn.
  by rewrite !orb_true_r.
Qed.

(** ** The stored resolver is kept *)

(** [verifyRequirementsYAML] does not touch the receiver's resolver and
    constructs none. *)
Lemma verifyRequirementsYAML_keeps resolver prefixes fileName s :
  let run := verifyRequirementsYAML resolver prefixes fileName s in
  versionResolver (final run) = versionResolver s ∧
  existsb isCreateVersionResolverCall (events run) = false.
Proof.
  intros run. unfold run.
  destruct (helm_LoadRequirementsFile fileName (world s)) as [req [e|]]
    eqn:Hload.
  { by rewrite (verifyRequirementsYAML_load_error _ _ _ _ _ _ Hload). }
  destruct (verifyRequirementsYAML_loop_run resolver prefixes fileName
              (Dependencies req) false s) as (deps' & m' & err & ev & Hloop).
  rewrite (verifyRequirementsYAML_loaded _ _ _ _ _ _ _ _ _ Hload Hloop).
  assert (Hev : existsb isCreateVersionResolverCall ev = false).
  { apply not_true_is_false. intros Hex.
    apply existsb_exists in Hex as (x & Hx & Hcreate).
    apply list_elem_of_In in Hx.
    pose proof (verifyRequirementsYAML_loop_events resolver prefixes fileName
                  (Dependencies req) false s x) as Hkind.
    rewrite Hloop in Hkind.
    by destruct (Hkind Hx) as [[? ->]|[? ->]]. }
  destruct err as [e|]; [done|]. destruct m'; [|done].
  cbn. rewrite existsb_app, Hev. cbn.
  by destruct (helm_SaveFile _ _ _).2.
Qed.

(** [discoverValuesFiles] only asks the file system. *)
Lemma discoverValuesFiles_keeps dir s :
  let run := discoverValuesFiles dir s in
  final run = s ∧
  existsb isCreateVersionResolverCall (events run) = false.
Proof.
  unfold discoverValuesFiles.
  generalize ["values.yaml"; SecretsFileName; "myvalues.yaml"].
  generalize (@nil string).
  intros acc names. revert acc.
  induction names as [|name names IH]; intros acc; [done|].
  cbn [discoverValuesFiles_loop]. unfold bind, FileExists, ret.
  destruct (util_FileExists _ (world s)) as [b [e|]]; [done|].
  specialize (IH (if b then acc ++ [filepath_Join [dir; name]] else acc)).
  destruct (discoverValuesFiles_loop _ _ _ s) as [[r s1] ev1].
  cbn in *. done.
Qed.

Lemma replaceMissingVersionsFromVersionStream_keeps
    requirementsConfig dir s r :
  versionResolver s = Some r →
  let run := replaceMissingVersionsFromVersionStream requirementsConfig dir s in
  versionResolver (final run) = Some r ∧
  existsb isCreateVersionResolverCall (events run) = false.
Proof.
  intros Hr run. unfold run, replaceMissingVersionsFromVersionStream.
  unfold FileExists, logf, emit, read_Dir, callGetRepositoryPrefixes,
    bind, ret.
  destruct (util_FileExists _ (world s)) as [b [e|]]; [done|].
  destruct b; cbn [negb]; [|done].
  rewrite (getOrCreateVersionResolver_stored _ _ _ Hr).
  destruct (GetRepositoryPrefixes (Some r)) as [prefixes [e|]]; [done|].
  destruct (verifyRequirementsYAML_keeps (Some r) prefixes
              (filepath_Join [dir; RequirementsFileName]) s) as [Hkeep Hev].
  destruct (verifyRequirementsYAML _ _ _ s) as [[[e|] s1] ev1];
    cbn in *; rewrite ?app_nil_r; split; congruence.
Qed.

(** The calls that the rendering makes through the closure of
    [createFuncMap] are lookups in the catalog and notes in the log. *)
Lemma versionStreamEvents_bound resolver
    (m : gmap string (TemplateFunc VersionResolver Values LibFunc)) calls :
  versionStreamEvents
    (<["versionStream" := Func2 (versionStream resolver)]> m) calls
  = flat_map (λ call, (versionStream resolver call.1 call.2).2) calls.
Proof. unfold versionStreamEvents. by rewrite lookup_insert_eq. Qed.

Lemma versionStreamEvents_no_create resolver
    (m : gmap string (TemplateFunc VersionResolver Values LibFunc)) calls :
  existsb isCreateVersionResolverCall
    (versionStreamEvents
       (<["versionStream" := Func2 (versionStream resolver)]> m) calls)
  = false.
Proof.
  rewrite versionStreamEvents_bound.
  induction calls as [|[kind name] calls IH]; [done|].
  cbn [flat_map]. rewrite existsb_app, IH. unfold versionStream. cbn.
  by destruct (StableVersionNumber resolver kind name) as [v [e|]].
Qed.

Lemma overwriteProviderValues_keeps
    requirements requirementsFileName valuesData params providersValuesDir
    s r :
  versionResolver s = Some r →
  let run := overwriteProviderValues requirements requirementsFileName
               valuesData params providersValuesDir s in
  final run = s ∧
  existsb isCreateVersionResolverCall (events run) = false.
Proof.
  intros Hr run. unfold run. unfold_overwrite.
  destruct (decide (Provider (Cluster requirements) = "")); [done|].
  destruct (util_FileExists _ (world s)) as [b [e0|]]; [done|].
  destruct b; cbn [negb]; [|done].
  rewrite (createFuncMap_stored _ _ _ Hr).
  match goal with
  | |- context [versionStreamEvents ?m ?calls] =>
      pose proof (versionStreamEvents_no_create (Some r)
                    helm_NewFunctionMap calls) as Hvs;
      generalize dependent (versionStreamEvents m calls); intros vs Hvs
  end.
  destruct (helm_ReadValuesYamlFileTemplateOutput _ _ _ _ _)
    as [overrideData [e0|]];
    [by cbn; rewrite ?app_nil_r, ?existsb_app, ?Hvs|].
  destruct (decide (length overrideData = 0));
    [by cbn; rewrite ?app_nil_r, ?existsb_app, ?Hvs|].
  destruct (helm_LoadValues valuesData) as [values [e0|]];
    [by cbn; rewrite ?app_nil_r, ?existsb_app, ?Hvs|].
  destruct (helm_LoadValues overrideData) as [overrides [e0|]];
    [by cbn; rewrite ?app_nil_r, ?existsb_app, ?Hvs|].
  destruct (yaml_Marshal _) as [out err].
  by cbn; rewrite ?app_nil_r, ?existsb_app, ?Hvs.
Qed.

(** C8: the resolver is made when it is first asked for and at most once
    for one receiver.  The first call of [getOrCreateVersionResolver] that
    returns a resolver and no error has made it from the URL and the ref
    of the configured version stream and has stored it; from then on, in
    any state in which the receiver holds it, [getOrCreateVersionResolver]
    and [createFuncMap] answer that same resolver without a call to
    [CreateVersionResolver], and every method of this file keeps it stored
    and constructs none. *)
Theorem resolver_created_once requirementsConfig s r :
  let first := getOrCreateVersionResolver requirementsConfig s in
  versionResolver s = None →
  result first = (Some r, None) →
  events first =
    [CreateVersionResolverCall (URL (VersionStream requirementsConfig))
       (Ref (VersionStream requirementsConfig))] ∧
  versionResolver (final first) = Some r ∧
  ∀ s', versionResolver s' = Some r →
    (∀ cfg, getOrCreateVersionResolver cfg s' = ((Some r, None), s', [])) ∧
    (∀ cfg, createFuncMap cfg s' =
       ((<["versionStream" := Func2 (versionStream (Some r))]>
           helm_NewFunctionMap, None), s', [])) ∧
    (∀ cfg fileName valuesData params dir,
       let run := overwriteProviderValues cfg fileName valuesData params
                    dir s' in
       versionResolver (final run) = Some r ∧
       existsb isCreateVersionResolverCall (events run) = false) ∧
    (∀ cfg dir,
       let run := replaceMissingVersionsFromVersionStream cfg dir s' in
       versionResolver (final run) = Some r ∧
       existsb isCreateVersionResolverCall (events run) = false) ∧
    (∀ resolver prefixes fileName,
       let run := verifyRequirementsYAML resolver prefixes fileName s' in
       versionResolver (final run) = Some r ∧
       existsb isCreateVersionResolverCall (events run) = false) ∧
    (∀ dir,
       let run := discoverValuesFiles dir s' in
       versionResolver (final run) = Some r ∧
       existsb isCreateVersionResolverCall (events run) = false).
Proof.
  intros first Hfresh Hok. unfold first in *.
  rewrite (getOrCreateVersionResolver_fresh _ _ Hfresh) in Hok |- *.
  cbn [result final events fst snd] in Hok |- *.
  destruct (CreateVersionResolver _ _ _) as [w [created [e|]]];
    [done|]. cbn in Hok |- *. injection Hok as ->.
  split_and!; [done..|].
  intros s' Hstored. split_and!.
  - intros cfg. by apply getOrCreateVersionResolver_stored.
  - intros cfg. by apply createFuncMap_stored.
  - intros cfg fileName valuesData params dir.
    destruct (overwriteProviderValues_keeps cfg fileName valuesData params
                dir s' r Hstored) as [Hfinal Hev].
    by rewrite Hfinal.
  - intros cfg dir.
    by apply replaceMissingVersionsFromVersionStream_keeps.
  - intros resolver prefixes fileName.
    destruct (verifyRequirementsYAML_keeps resolver prefixes fileName s')
      as [Hkeep Hev].
    split; [exact (eq_trans Hkeep Hstored)|exact Hev].
  - intros dir.
    destruct (discoverValuesFiles_keeps dir s') as [Hfinal Hev].
    split; [exact (eq_trans (f_equal versionResolver Hfinal) Hstored)
           |exact Hev].
Qed.

End Properties.

(** * The statements on the concrete world *)

Import Sample.


(** The sample file store keeps what is saved. *)
Lemma sample_load_after_save : @load_after_save _ _ _ _ _ externals.
Proof.
  intros fileName req d d'. cbn. unfold save, load.
  destruct (decide (fileName ∈ unreadable d)) as [Hin|Hin]; [done|].
  intros [= <-]. cbn. rewrite decide_False by done.
  by rewrite lookup_insert_eq.
Qed.

(** A document with an alias: the key is made of the name. *)
Lemma lookup_key_is_prefix_and_name_witness :
  lookups (events (verifyRequirementsYAML resolver prefixes file
                     (fresh [web; redis])))
  = [(resolver, "charts", "stable/nginx")].
Proof.
  refine (proj2 (lookup_key_is_prefix_and_name resolver prefixes file
                   (fresh [web; redis]) {| Dependencies := [web; redis] |}
                   _) _);
    vm_compute; reflexivity.
Defined.

(** The key is not made of the effective name: for the entry [web], whose
    alias is web and whose name is nginx, the catalog is asked for
    stable/nginx and not for the prefix joined with the alias. *)
Lemma lookup_key_ignores_alias :
  let run := verifyRequirementsYAML resolver prefixes file (fresh [web]) in
  displayName web = "web" ∧
  qualifiedName prefixes web = "stable/web" ∧
  lookups (events run) = [(resolver, KindChart, "stable/nginx")] ∧
  (resolver, KindChart, qualifiedName prefixes web) ∉ lookups (events run).
Proof.
  assert (Hlook :
    lookups (events (verifyRequirementsYAML resolver prefixes file
                       (fresh [web])))
    = [(resolver, KindChart, "stable/nginx")]) by (vm_compute; reflexivity).
  cbv zeta. rewrite Hlook. split_and!; [reflexivity..|].
  intros Hin. apply list_elem_of_singleton in Hin.
  vm_compute in Hin. discriminate.
Qed.


(** A version can be set and nothing written back: in the document
    [nginx; orphan] the loop sets the version of nginx and then stops at
    orphan, which has no repository. *)
Lemma aborted_run_sets_without_saving :
  let s := fresh [nginx; orphan] in
  let looped :=
    result (verifyRequirementsYAML_loop resolver prefixes file
              [nginx; orphan] false s) in
  helm_LoadRequirementsFile file (world s)
    = ({| Dependencies := [nginx; orphan] |}, None) ∧
  looped.1.1 = [set_Version "1.2.3" nginx; orphan] ∧
  looped.1.2 = true ∧
  existsb isSaveFileCall
    (events (verifyRequirementsYAML resolver prefixes file s)) = false ∧
  final (verifyRequirementsYAML resolver prefixes file s) = s.
Proof. vm_compute. split_and!; reflexivity. Qed.

(** The document [nginx; redis]: the first run sets the version of nginx
    and saves; the second run only loads. *)
Lemma write_back_and_idempotence_witness :
  let run := verifyRequirementsYAML resolver prefixes file
               (fresh [nginx; redis]) in
  let again := verifyRequirementsYAML resolver prefixes file (final run) in
  (∃ f r, SaveFileCall f r ∈ events run) ∧
  result again = None ∧
  final again = final run ∧
  events again = [LoadRequirementsFileCall file].
Proof.
  intros run again.
  destruct (write_back_and_idempotence resolver prefixes file
              (fresh [nginx; redis]) {| Dependencies := [nginx; redis] |})
    as (Hiff & _ & Hidem).
  - vm_compute. reflexivity.
  - split.
    + apply Hiff. split; [vm_compute; discriminate|vm_compute; reflexivity].
    + destruct Hidem as (Hok & Hfinal & Hev & _).
      * vm_compute. reflexivity.
      * exact sample_load_after_save.
      * split_and!; [exact Hok|exact Hfinal|exact Hev].
Defined.

(** The document [nginx; redis; orphan; stranger]: the run stops at
    orphan, having asked the catalog for nginx only. *)
Lemma first_failure_aborts_without_save_witness :
  let s := fresh [nginx; redis; orphan; stranger] in
  let run := verifyRequirementsYAML resolver prefixes file s in
  is_Some (result run) ∧
  final run = s ∧
  (∀ f r, SaveFileCall f r ∉ events run) ∧
  lookups (events run) = [(resolver, "charts", "stable/nginx")].
Proof.
  intros s run.
  destruct (first_failure_aborts_without_save resolver prefixes file s
              {| Dependencies := [nginx; redis; orphan; stranger] |}
              [nginx; redis] orphan [stranger] MissingRepository)
    as (Hsome & _ & Hfinal & Hno & Hlook).
  - vm_compute. reflexivity.
  - vm_compute. reflexivity.
  - repeat constructor; vm_compute; reflexivity.
  - vm_compute. reflexivity.
  - split_and!; [exact Hsome|exact Hfinal|exact Hno|exact Hlook].
Defined.

(** The document [redis; orphan]: orphan has no repository. *)
Lemma missing_repository_or_prefix_fails_witness :
  let s := fresh [redis; orphan] in
  let run := verifyRequirementsYAML resolver prefixes file s in
  is_Some (result run) ∧ final run = s ∧
  (∀ f r, SaveFileCall f r ∉ events run).
Proof.
  intros s run.
  destruct (missing_repository_or_prefix_fails resolver prefixes file s
              {| Dependencies := [redis; orphan] |} orphan)
    as (Hsome & Hfinal & Hno & _).
  - vm_compute. reflexivity.
  - apply list_elem_of_further, list_elem_of_here.
  - vm_compute. reflexivity.
  - left. vm_compute. reflexivity.
  - done.
Defined.

(** The document [stranger], whose repository has no prefix. *)
Example stranger_fails :
  result (verifyRequirementsYAML resolver prefixes file (fresh [stranger]))
  = Some (Errorf
      "the helm repository https://elsewhere.example.com does not have an associated prefix in in the 'charts/repositories.yml' file the version stream, so we cannot default the version in file chart/requirements.yaml").
Proof. vm_compute. reflexivity. Qed.

(** The document [nginx; redis]: redis comes with a version. *)
Lemma versioned_dependency_untouched_witness :
  let s := fresh [nginx; redis] in
  (result (verifyRequirementsYAML_loop resolver prefixes file
             [nginx; redis] false s)).1.1 !! 1 = Some redis ∧
  (∀ f r,
     SaveFileCall f r ∈
       events (verifyRequirementsYAML resolver prefixes file s) →
     Dependencies r !! 1 = Some redis).
Proof.
  intros s.
  destruct (versioned_dependency_untouched resolver prefixes file s
              {| Dependencies := [nginx; redis] |} 1 redis)
    as (Hmem & Hsaved & _).
  - vm_compute. reflexivity.
  - vm_compute. reflexivity.
  - vm_compute. discriminate.
  - split; [exact Hmem|exact Hsaved].
Defined.

(** The three cases in which the values come back as they were: no
    provider; the provider aks, for which there is no file of overrides;
    the provider eks, whose file renders to nothing. *)
Lemma overwriteProviderValues_unchanged_witness :
  let values := [Byte.x62; Byte.x3a; Byte.x20; Byte.x32] in
  result (overwriteProviderValues (config "") "jx-requirements.yml" values
            [] "overrides" (fresh [])) = (values, None) ∧
  result (overwriteProviderValues (config "aks") "jx-requirements.yml" values
            [] "overrides" (fresh [])) = (values, None) ∧
  result (overwriteProviderValues (config "eks") "jx-requirements.yml" values
            [] "overrides" (fresh [])) = (values, None).
Proof.
  intros values. split_and!.
  - apply overwriteProviderValues_unchanged. left. reflexivity.
  - apply overwriteProviderValues_unchanged. right; left.
    vm_compute. reflexivity.
  - apply overwriteProviderValues_unchanged. right; right.
    split_and!; [vm_compute; reflexivity..|].
    exists []. split; vm_compute; reflexivity.
Defined.



(** Fresh options: the first call clones the version stream, the calls
    after it do not. *)
Lemma resolver_created_once_witness :
  let first := getOrCreateVersionResolver (config "gke") (fresh []) in
  events first =
    [CreateVersionResolverCall
       "https://github.com/jenkins-x/jenkins-x-versions.git" "master"] ∧
  getOrCreateVersionResolver (config "eks") (final first)
    = ((resolver, None), final first, []) ∧
  result (createFuncMap (config "gke") (final first))
    = (<["versionStream" := Func2 (versionStream resolver)]> ∅, None).
Proof.
  intros first.
  destruct (resolver_created_once (config "gke") (fresh []) catalog)
    as (Hev & Hstored & Hlater).
  - reflexivity.
  - vm_compute. reflexivity.
  - destruct (Hlater (final first) Hstored) as (Hget & Hmap & _).
    split_and!; [exact Hev|apply Hget|].
    by rewrite (Hmap (config "gke")).
Defined.

(** Not every existing file is answered for every directory: in the
    sample directory values.yaml and myvalues.yaml exist and the check of
    secrets.yaml fails; the method returns at that check, so myvalues.yaml
    is neither checked nor answered. *)
Lemma failed_check_hides_later_files :
  let s := fresh [] in
  util_FileExists "chart/myvalues.yaml" (world s) = (true, None) ∧
  result (discoverValuesFiles "chart" s)
    = (["chart/values.yaml"],
       Some (Errorf
         "stat chart/secrets.yaml: too many levels of symbolic links")) ∧
  events (discoverValuesFiles "chart" s)
    = [FileExistsCall "chart/values.yaml";
       FileExistsCall "chart/secrets.yaml"] ∧
  "chart/myvalues.yaml" ∉ (result (discoverValuesFiles "chart" s)).1.
Proof.
  assert (Hrun : result (discoverValuesFiles "chart" (fresh []))
    = (["chart/values.yaml"],
       Some (Errorf
         "stat chart/secrets.yaml: too many levels of symbolic links")))
    by (vm_compute; reflexivity).
  cbv zeta. rewrite Hrun. split_and!; [vm_compute; reflexivity..|].
  cbn. intros Hin. apply list_elem_of_singleton in Hin. discriminate.
Qed.

(** A directory whose checks all succeed. *)
Lemma discoverValuesFiles_all_existing_witness :
  result (discoverValuesFiles "chart" tidy)
    = (["chart/values.yaml"; "chart/myvalues.yaml"], None) ∧
  events (discoverValuesFiles "chart" tidy)
    = [FileExistsCall "chart/values.yaml";
       FileExistsCall "chart/secrets.yaml";
       FileExistsCall "chart/myvalues.yaml"].
Proof.
  destruct (discoverValuesFiles_all_existing "chart" tidy)
    as (Hres & Hev & _).
  - intros p Hp.
    repeat (apply elem_of_cons in Hp as [->|Hp]; [vm_compute; reflexivity|]).
    by apply elem_of_nil in Hp.
  - split; [exact Hres|exact Hev].
Defined.

(** Values that do not parse: the error comes with the values as they
    were given. *)
Lemma overwriteProviderValues_error_keeps_input_witness :
  (result (overwriteProviderValues (config "gke") "jx-requirements.yml"
             [Byte.x09; Byte.x62] [] "overrides" (fresh []))).1
  = [Byte.x09; Byte.x62].
Proof.
  refine (proj1 (overwriteProviderValues_error_keeps_input (config "gke")
                   "jx-requirements.yml" [Byte.x09; Byte.x62] [] "overrides"
                   (fresh []) _
                   (Wrapf (Errorf "yaml: found character that cannot start any token")
                      "failed to unmarshal the default helm values")
                   _ _));
    vm_compute; reflexivity.
Defined.

(** * Further properties of the methods *)

Section Further.

Context {World VersionResolver Prefixes Values LibFunc : Type}.
Context `{!Externals World VersionResolver Prefixes Values LibFunc}.

Implicit Types s : State World VersionResolver.
Implicit Types resolver : option VersionResolver.
Implicit Types prefixes : Prefixes.
Implicit Types dep : Dependency.
Implicit Types deps : list Dependency.

(** ** discoverValuesFiles *)

Lemma discoverValuesFiles_loop_sound dir names acc s :
  let x := discoverValuesFiles_loop dir names acc s in
  let paths := (λ name, filepath_Join [dir; name]) <$> names in
  final x = s ∧
  events x `prefix_of` FileExistsCall <$> paths ∧
  ∃ more, (result x).1 = acc ++ more ∧
          more `prefix_of` filter (λ p, found p (world s) = true) paths.
Proof.
  revert acc. induction names as [|name names IH]; intros acc.
  - cbn. split_and!; [done..|]. exists []. by rewrite app_nil_r.
  - cbn [discoverValuesFiles_loop]. unfold bind, FileExists, ret.
    rewrite !fmap_cons.
    destruct (util_FileExists (filepath_Join [dir; name]) (world s))
      as [b [e|]] eqn:Hstat.
    { cbn. split_and!; [done|apply prefix_cons, prefix_nil|].
      exists []. rewrite app_nil_r. split; [done|apply prefix_nil]. }
    assert (Hfound : found (filepath_Join [dir; name]) (world s) = b)
      by (unfold found; rewrite Hstat; by destruct b).
    specialize (IH (if b then acc ++ [filepath_Join [dir; name]] else acc)).
    destruct (discoverValuesFiles_loop _ _ _ s) as [[r s1] ev1].
    unfold result, final, events in IH |- *. cbn [fst snd app] in IH |- *.
    destruct IH as (-> & Hev & more & Hres & Hmore).
    split_and!; [done|by apply prefix_cons|].
    destruct b.
    + rewrite filter_cons_True by done.
      exists (filepath_Join [dir; name] :: more).
      split; [by rewrite Hres, <- app_assoc|by apply prefix_cons].
    + rewrite filter_cons_False by (rewrite Hfound; done). by exists more.
Qed.

(** X1: whatever the existence checks answer, [discoverValuesFiles] leaves
    the receiver and the file system as they are, checks the three
    candidate paths in their order up to where it stops, and answers, in
    that order, only candidate paths whose check said without error that
    the file is there. *)
Theorem discoverValuesFiles_sound dir s :
  let run := discoverValuesFiles dir s in
  let paths := (λ name, filepath_Join [dir; name]) <$>
                 ["values.yaml"; SecretsFileName; "myvalues.yaml"] in
  final run = s ∧
  events run `prefix_of` FileExistsCall <$> paths ∧
  (result run).1 `prefix_of` filter (λ p, found p (world s) = true) paths ∧
  ∀ p, p ∈ (result run).1 →
       p ∈ paths ∧ util_FileExists p (world s) = (true, None).
Proof.
  intros run paths. unfold run, discoverValuesFiles.
  destruct (discoverValuesFiles_loop_sound dir
              ["values.yaml"; SecretsFileName; "myvalues.yaml"] [] s)
    as (Hfinal & Hev & more & Hres & Hmore).
  fold paths in Hev, Hmore.
  cbn [app] in Hres. rewrite Hres.
  split_and!; [done..|].
  intros p Hp. destruct Hmore as [rest Hrest].
  assert (Hin : p ∈ filter (λ p, found p (world s) = true) paths)
    by (rewrite Hrest; apply elem_of_app; by left).
  apply list_elem_of_filter in Hin as [Hfound Hin]. split; [done|].
  unfold found in Hfound.
  by destruct (util_FileExists p (world s)) as [[|] [e|]].
Qed.

(** The loop up to the first check that fails. *)
Lemma discoverValuesFiles_loop_first_error dir pre name post acc s b e :
  (∀ n, n ∈ pre →
     (util_FileExists (filepath_Join [dir; n]) (world s)).2 = None) →
  util_FileExists (filepath_Join [dir; name]) (world s) = (b, Some e) →
  discoverValuesFiles_loop dir (pre ++ name :: post) acc s =
    ((acc ++ filter (λ p, (util_FileExists p (world s)).1 = true)
               ((λ n, filepath_Join [dir; n]) <$> pre), Some e),
     s,
     FileExistsCall <$> ((λ n, filepath_Join [dir; n]) <$> pre ++ [name])).
Proof.
  intros Hpre Hname. revert acc.
  induction pre as [|n pre IH]; intros acc.
  - cbn [app fmap list_fmap filter list_filter].
    rewrite (discoverValuesFiles_loop_error _ _ _ _ _ _ _ Hname).
    by rewrite app_nil_r.
  - cbn [app discoverValuesFiles_loop]. unfold bind, FileExists.
    pose proof (Hpre n (list_elem_of_here _ _)) as Hn.
    destruct (util_FileExists (filepath_Join [dir; n]) (world s))
      as [bn err] eqn:Hstat.
    cbn in Hn. subst err.
    rewrite IH by (intros m Hm; apply Hpre; by apply list_elem_of_further).
    rewrite !fmap_cons, filter_cons, Hstat. cbn [fst].
    destruct bn.
    + rewrite decide_True by done. by rewrite <- app_assoc.
    + by rewrite decide_False by done.
Qed.

(** X2: when one of the three existence checks fails, every check before
    it having succeeded, [discoverValuesFiles] returns the error of that
    check as it is, with the paths found to exist before it; the check
    that failed is the last one made. *)
Theorem discoverValuesFiles_first_error dir s pre name post b e :
  ["values.yaml"; SecretsFileName; "myvalues.yaml"] = pre ++ name :: post →
  (∀ n, n ∈ pre →
     (util_FileExists (filepath_Join [dir; n]) (world s)).2 = None) →
  util_FileExists (filepath_Join [dir; name]) (world s) = (b, Some e) →
  discoverValuesFiles dir s =
    ((filter (λ p, (util_FileExists p (world s)).1 = true)
        ((λ n, filepath_Join [dir; n]) <$> pre), Some e),
     s,
     FileExistsCall <$> ((λ n, filepath_Join [dir; n]) <$> pre ++ [name])).
Proof.
  intros Hsplit Hpre Hname. unfold discoverValuesFiles. rewrite Hsplit.
  by rewrite (discoverValuesFiles_loop_first_error _ _ _ _ _ _ _ _ Hpre
                Hname).
Qed.

(** ** getOrCreateVersionResolver *)

(** [getOrCreateVersionResolver] always answers the resolver that the
    receiver holds when it returns.  When the receiver held one, nothing
    is called and nothing changes; when it held none,
    [CreateVersionResolver] is called once, and the method returns an
    error exactly when that call does. *)
Lemma getOrCreateVersionResolver_answers_field requirementsConfig s :
  let x := getOrCreateVersionResolver requirementsConfig s in
  let vs := VersionStream requirementsConfig in
  (result x).1 = versionResolver (final x) ∧
  Dir (final x) = Dir s ∧
  (versionResolver s ≠ None →
     x = ((versionResolver s, None), s, [])) ∧
  (versionResolver s = None →
     events x = [CreateVersionResolverCall (URL vs) (Ref vs)] ∧
     world (final x) = (CreateVersionResolver (URL vs) (Ref vs) (world s)).1 ∧
     versionResolver (final x)
       = (CreateVersionResolver (URL vs) (Ref vs) (world s)).2.1 ∧
     ((result x).2 = None ↔
      (CreateVersionResolver (URL vs) (Ref vs) (world s)).2.2 = None)).
Proof.
  intros x vs. unfold x.
  destruct (versionResolver s) as [r|] eqn:Hr.
  - rewrite (getOrCreateVersionResolver_stored _ _ _ Hr). cbn.
    split_and!; [by rewrite Hr|done|done|done].
  - rewrite (getOrCreateVersionResolver_fresh _ _ Hr). fold vs.
    destruct (CreateVersionResolver _ _ _) as [w [created [e|]]]; cbn;
      split_and!; try done; intros _; split_and!; done.
Qed.

(** X3: a construction that fails and answers no resolver is not
    remembered: the method returns the error wrapped, the receiver still
    holds no resolver, and the next call constructs again, with the
    configuration of that call. *)
Theorem getOrCreateVersionResolver_retries requirementsConfig s w e :
  let vs := VersionStream requirementsConfig in
  let x := getOrCreateVersionResolver requirementsConfig s in
  versionResolver s = None →
  CreateVersionResolver (URL vs) (Ref vs) (world s) = (w, (None, Some e)) →
  result x = (None, Some (Wrapf e "failed to create version resolver")) ∧
  versionResolver (final x) = None ∧
  world (final x) = w ∧
  ∀ cfg,
    events (getOrCreateVersionResolver cfg (final x)) =
      [CreateVersionResolverCall (URL (VersionStream cfg))
         (Ref (VersionStream cfg))].
Proof.
  intros vs x Hr Hmade. unfold x.
  rewrite (getOrCreateVersionResolver_fresh _ _ Hr). fold vs.
  rewrite Hmade. unfold result, final, events. cbn [fst snd].
  split_and!; [done..|].
  intros cfg. by rewrite getOrCreateVersionResolver_fresh.
Qed.

(** ** createFuncMap *)

(** X4: [createFuncMap] never drops a function of the library: under every
    name but versionStream the map it answers holds what
    [helm.NewFunctionMap] holds.  When the resolver cannot be had, the map
    is the library's as it is and the error is that of
    [getOrCreateVersionResolver]; otherwise versionStream is bound to the
    closure over the receiver's resolver, in place of whatever the library
    had under that name. *)
Theorem createFuncMap_keeps_library requirementsConfig s :
  let x := createFuncMap requirementsConfig s in
  let got := getOrCreateVersionResolver requirementsConfig s in
  final x = final got ∧
  events x = events got ∧
  (result x).2 = (result got).2 ∧
  (∀ name, name ≠ "versionStream" →
     (result x).1 !! name = helm_NewFunctionMap !! name) ∧
  ((result x).2 ≠ None → (result x).1 = helm_NewFunctionMap) ∧
  ((result x).2 = None →
     (result x).1 !! "versionStream"
       = Some (Func2 (versionStream (versionResolver (final x))))).
Proof.
  intros x got. unfold x, createFuncMap, bind.
  pose proof (getOrCreateVersionResolver_answers_field requirementsConfig s)
    as (Hfield & _).
  fold got in Hfield |- *.
  destruct got as [[[r [e|]] s1] ev1]; cbn in Hfield |- *; subst r.
  - rewrite app_nil_r. split_and!; done.
  - rewrite app_nil_r. split_and!; try done.
    + intros name Hname. by rewrite lookup_insert_ne.
    + intros _. by rewrite lookup_insert_eq.
Qed.

(** ** overwriteProviderValues *)

Ltac step_overwrite :=
  unfold overwriteProviderValues, FileExists,
    ReadValuesYamlFileTemplateOutput, LoadValues, CombineMapTrees, Marshal,
    logf, emit, bind, ret.

(** X5: when the provider has a file of overrides that renders to
    something and both the values and the rendered overrides parse,
    [overwriteProviderValues] answers what [yaml.Marshal] answers, bytes
    and error alike, for the values given with the rendered overrides
    merged into them; the calls are made in this order: the existence
    check, the building of the function map, the rendering and, while it
    runs, the lookups and the notes in the log of the versionStream
    function that the template calls, the parsing of the values and then
    of the overrides, the merge, the serialization.  The function that the
    template calls is the closure over the receiver's resolver. *)
Theorem overwriteProviderValues_merged
    requirements requirementsFileName valuesData params providersValuesDir s
    funcMap s1 ev1 overrideData values overrides :
  let valuesTmplYamlFile :=
    filepath_Join [providersValuesDir; Provider (Cluster requirements);
                   "values.tmpl.yaml"] in
  let calls :=
    helm_versionStreamCalls valuesTmplYamlFile params funcMap requirements
      (world s1) in
  Provider (Cluster requirements) ≠ "" →
  util_FileExists valuesTmplYamlFile (world s) = (true, None) →
  createFuncMap requirements s = ((funcMap, None), s1, ev1) →
  helm_ReadValuesYamlFileTemplateOutput valuesTmplYamlFile params funcMap
    requirements (world s1) = (overrideData, None) →
  overrideData ≠ [] →
  helm_LoadValues valuesData = (values, None) →
  helm_LoadValues overrideData = (overrides, None) →
  overwriteProviderValues requirements requirementsFileName valuesData
    params providersValuesDir s =
    (yaml_Marshal (util_CombineMapTrees values overrides), s1,
     [FileExistsCall valuesTmplYamlFile;
      LogCall Info ("Applying the kubernetes overrides at " +:+
                    util_ColorInfo valuesTmplYamlFile +:+ nl)] ++
     ev1 ++
     [ReadValuesYamlFileTemplateOutputCall valuesTmplYamlFile] ++
     versionStreamEvents funcMap calls ++
     [LoadValuesCall valuesData;
      LoadValuesCall overrideData;
      CombineMapTreesCall values overrides;
      MarshalCall (util_CombineMapTrees values overrides)]) ∧
  versionStreamEvents funcMap calls =
    flat_map
      (λ call, (versionStream (versionResolver s1) call.1 call.2).2) calls.
Proof.
  intros file calls Hp Hstat Hmade Hrender Hdata Hvalues Hoverrides.
  split.
  - step_overwrite. fold file.
    rewrite decide_False by done. rewrite Hstat. cbn [negb].
    rewrite Hmade, Hrender.
    rewrite decide_False by (by destruct overrideData).
    rewrite Hvalues, Hoverrides. fold calls.
    destruct (yaml_Marshal _) as [data err]. cbn.
    by rewrite ?app_nil_r, <- ?app_assoc.
  - pose proof (createFuncMap_ok requirements s funcMap) as Hmap.
    rewrite Hmade in Hmap. cbn in Hmap. rewrite (Hmap eq_refl).
    apply versionStreamEvents_bound.
Qed.

(** X6: without a provider [overwriteProviderValues] only logs a warning,
    and without a file of overrides for the provider it only makes the
    existence check and logs: in both cases the resolver is not asked for,
    nothing is rendered or parsed, and the receiver and the file system
    are as they were. *)
Theorem overwriteProviderValues_idle
    requirements requirementsFileName valuesData params providersValuesDir s :
  let provider := Provider (Cluster requirements) in
  let valuesTmplYamlFile :=
    filepath_Join [providersValuesDir; provider; "values.tmpl.yaml"] in
  provider = "" ∨
  util_FileExists valuesTmplYamlFile (world s) = (false, None) →
  overwriteProviderValues requirements requirementsFileName valuesData
    params providersValuesDir s =
    ((valuesData, None), s,
     if decide (provider = "") then
       [LogCall Warn ("No provider in the requirements file " +:+
                      requirementsFileName +:+ nl)]
     else
       [FileExistsCall valuesTmplYamlFile;
        LogCall Info ("Applying the kubernetes overrides at " +:+
                      util_ColorInfo valuesTmplYamlFile +:+ nl);
        LogCall Warn
          ("No provider specific values overrides exist in file " +:+
           valuesTmplYamlFile +:+ nl)]).
Proof.
  intros provider file Hcase. step_overwrite. fold provider. fold file.
  destruct (decide (provider = "")) as [Hp|Hp]; [done|].
  destruct Hcase as [?|Hstat]; [done|]. by rewrite Hstat.
Qed.

(** X7: [overwriteProviderValues] changes nothing but through the
    construction of the resolver: a run that makes no call of
    [CreateVersionResolver] leaves the receiver and the file system as
    they were, whether it returns an error or not. *)
Theorem overwriteProviderValues_frame
    requirements requirementsFileName valuesData params providersValuesDir s :
  let run := overwriteProviderValues requirements requirementsFileName
               valuesData params providersValuesDir s in
  existsb isCreateVersionResolverCall (events run) = false →
  final run = s.
Proof.
  intros run. unfold run.
  destruct (versionResolver s) as [r|] eqn:Hr.
  { intros _.
    by destruct (overwriteProviderValues_keeps requirements
                   requirementsFileName valuesData params providersValuesDir
                   s r Hr). }
  step_overwrite.
  destruct (decide (Provider (Cluster requirements) = "")); [done|].
  destruct (util_FileExists _ (world s)) as [b [e0|]]; [done|].
  destruct b; cbn [negb]; [|done].
  unfold createFuncMap, bind, ret.
  rewrite (getOrCreateVersionResolver_fresh _ _ Hr).
  destruct (CreateVersionResolver (URL (VersionStream requirements))
              (Ref (VersionStream requirements)) (world s))
    as [w [created [e|]]]; cbn [fst snd world set_world set_versionResolver];
    [by cbn|].
  match goal with
  | |- context [helm_ReadValuesYamlFileTemplateOutput ?f ?p ?m ?r ?d] =>
      destruct (helm_ReadValuesYamlFileTemplateOutput f p m r d)
        as [overrideData [e0|]]; [by cbn|]
  end.
  destruct (decide (length overrideData = 0)); [by cbn|].
  destruct (helm_LoadValues valuesData) as [values [e0|]]; [by cbn|].
  destruct (helm_LoadValues overrideData) as [overrides [e0|]]; [by cbn|].
  destruct (yaml_Marshal _) as [out err]. by cbn.
Qed.

(** ** verifyRequirementsYAML *)

Lemma verifyRequirementsYAML_loop_versionSet
    resolver prefixes fileName deps m s :
  Forall2 versionSet deps
    (result (verifyRequirementsYAML_loop resolver prefixes fileName
               deps m s)).1.1.
Proof.
  assert (Hrefl : ∀ dep, versionSet dep dep)
    by (intros dep; unfold versionSet; split_and!; [done..|by left]).
  destruct (verifyRequirementsYAML_loop_ind resolver prefixes fileName s
    (λ deps _ r _, Forall2 versionSet deps r.1.1)) with deps m
    as [_ HP]; [..|done].
  - intros ?. constructor.
  - intros dep rest ? rest' ? ? ? _ _ IH. cbn in *. by constructor.
  - intros dep rest ? k e _ _. cbn. by apply Forall_Forall2_diag, Forall_true.
  - intros dep rest ? v msg rest' ? ? ? Hv _ Hne _ _ IH. cbn in *.
    constructor; [|done]. unfold versionSet. cbn. split_and!; [done..|].
    by right.
Qed.

Lemma verifyRequirementsYAML_loop_resolved_all
    resolver prefixes fileName deps m s deps' m' ev :
  verifyRequirementsYAML_loop resolver prefixes fileName deps m s =
    ((deps', m', None), s, ev) →
  deps' = resolved resolver prefixes <$> deps.
Proof.
  intros Hrun.
  destruct (verifyRequirementsYAML_loop_ind resolver prefixes fileName s
    (λ deps _ r _, r.2 = None → r.1.1 = resolved resolver prefixes <$> deps))
    with deps m as [_ HP].
  - done.
  - intros dep rest ? rest' ? err ? Hv _ IH Herr. cbn [fst snd] in *.
    rewrite fmap_cons, (IH Herr). unfold resolved at 2.
    by rewrite decide_False.
  - done.
  - intros dep rest ? v msg rest' ? err ? Hv _ _ Hsvn _ IH Herr.
    cbn [fst snd] in *.
    rewrite fmap_cons, (IH Herr). unfold resolved at 2, fullChartName.
    rewrite decide_True by done. by rewrite Hsvn.
  - rewrite Hrun in HP. by apply HP.
Qed.

Lemma verifyRequirementsYAML_loop_passes resolver prefixes fileName deps m s :
  Forall (λ dep, failure resolver prefixes dep = None) deps →
  (result (verifyRequirementsYAML_loop resolver prefixes fileName
             deps m s)).2 = None.
Proof.
  destruct (verifyRequirementsYAML_loop_ind resolver prefixes fileName s
    (λ deps _ r _,
       Forall (λ dep, failure resolver prefixes dep = None) deps →
       r.2 = None)) with deps m as [_ HP]; [..|done].
  - done.
  - intros dep rest ? rest' ? err ? _ _ IH Hall. cbn in *.
    apply IH. by inversion Hall.
  - intros dep rest ? k e _ Hk Hall. inversion Hall; congruence.
  - intros dep rest ? v msg rest' ? err ? _ _ _ _ _ IH Hall. cbn in *.
    apply IH. by inversion Hall.
Qed.

Lemma verifyRequirementsYAML_loop_saves resolver prefixes fileName deps m s :
  saves (events (verifyRequirementsYAML_loop resolver prefixes fileName
                   deps m s)) = [].
Proof.
  pose proof (verifyRequirementsYAML_loop_events resolver prefixes fileName
                deps m s) as Hkind.
  induction (events _) as [|x ev IH]; [done|].
  assert (Hrest : saves ev = [])
    by (apply IH; intros y Hy; apply Hkind; by apply list_elem_of_further).
  destruct (Hkind x (list_elem_of_here _ _)) as [[? ->]|[? ->]];
    unfold saves in *; cbn [omap list_omap]; done.
Qed.

(** X8: whatever the outcome of the run, [verifyRequirementsYAML] keeps
    the number and the order of the entries and their name, repository
    and alias; the version of an entry is either kept or, when there was
    none, set to a non-empty one: a version is never cleared and never
    replaced.  This holds of the document the loop leaves and of any
    document that is saved. *)
Theorem verifyRequirementsYAML_only_sets_versions
    resolver prefixes fileName s req :
  helm_LoadRequirementsFile fileName (world s) = (req, None) →
  Forall2 versionSet (Dependencies req)
    (result (verifyRequirementsYAML_loop resolver prefixes fileName
               (Dependencies req) false s)).1.1 ∧
  ∀ f r,
    (f, r) ∈ saves (events (verifyRequirementsYAML resolver prefixes
                              fileName s)) →
    Forall2 versionSet (Dependencies req) (Dependencies r).
Proof.
  intros Hload. split; [apply verifyRequirementsYAML_loop_versionSet|].
  intros f r Hin.
  apply list_elem_of_omap in Hin as (x & Hx & Hsome).
  destruct x; try discriminate. injection Hsome as -> ->.
  destruct (verifyRequirementsYAML_saves _ _ _ _ _ _ Hx)
    as (_ & _ & req' & m' & ev & Hload' & Hloop & _).
  assert (req' = req) as -> by congruence.
  pose proof (verifyRequirementsYAML_loop_versionSet resolver prefixes
                fileName (Dependencies req) false s) as Hset.
  by rewrite Hloop in Hset.
Qed.

(** X9: a run that returns no error has given every entry without a
    version the version that the catalog answers for the chart named by
    the entry's prefix and name, and has left the other entries alone.
    When every entry had a version the run only loads; otherwise this
    document is what it saves, once, and the file store is the one that
    [SaveFile] leaves. *)
Theorem verifyRequirementsYAML_resolves_from_catalog
    resolver prefixes fileName s req :
  helm_LoadRequirementsFile fileName (world s) = (req, None) →
  let run := verifyRequirementsYAML resolver prefixes fileName s in
  let doc :=
    {| Dependencies := resolved resolver prefixes <$> Dependencies req |} in
  result run = None →
  (result (verifyRequirementsYAML_loop resolver prefixes fileName
             (Dependencies req) false s)).1.1 = Dependencies doc ∧
  Forall (λ dep, Version dep ≠ "") (Dependencies doc) ∧
  (Forall (λ dep, Version dep ≠ "") (Dependencies req) →
     saves (events run) = [] ∧ final run = s) ∧
  (Exists (λ dep, Version dep = "") (Dependencies req) →
     saves (events run) = [(fileName, doc)] ∧
     helm_SaveFile fileName doc (world s) = (world (final run), None)).
Proof.
  intros Hload run doc Hok.
  destruct (verifyRequirementsYAML_loop_run resolver prefixes fileName
              (Dependencies req) false s) as (deps' & m' & err & ev & Hloop).
  pose proof (verifyRequirementsYAML_loaded _ _ _ _ _ _ _ _ _ Hload Hloop)
    as Hrun. fold run in Hrun.
  destruct err as [e|]; [by rewrite Hrun in Hok|].
  pose proof (verifyRequirementsYAML_loop_resolved_all _ _ _ _ _ _ _ _ _
                Hloop) as Hdeps.
  destruct (verifyRequirementsYAML_loop_completed _ _ _ _ _ _ _ _ _ Hloop)
    as (_ & Hall & _).
  pose proof (verifyRequirementsYAML_loop_modified _ _ _ _ _ _ _ _ _ _ Hloop)
    as Hmod.
  pose proof (verifyRequirementsYAML_loop_saves resolver prefixes fileName
                (Dependencies req) false s) as Hsaves.
  rewrite Hloop in Hsaves |- *. cbn [result events fst snd] in Hsaves |- *.
  subst deps'. split_and!; [done..| |].
  - intros Hversioned.
    rewrite (verifyRequirementsYAML_loop_noop _ _ _ _ _ _ Hversioned)
      in Hloop.
    injection Hloop as Hsame <- _. rewrite Hrun. done.
  - intros Hempty.
    assert (m' = true) as ->.
    { apply Hmod. right. intros Hsame. rewrite Hsame in Hall.
      apply Exists_exists in Hempty as (dep & Hin & Hv).
      rewrite Forall_forall in Hall. by apply (Hall dep Hin). }
    rewrite Hrun in Hok |- *. cbn [result final events fst snd] in Hok |- *.
    fold doc in Hok |- *.
    destruct (helm_SaveFile fileName doc (world s)) as [w [e|]]; [done|].
    cbn. split; [|done].
    unfold saves in *. cbn [omap list_omap]. rewrite omap_app, Hsaves.
    done.
Qed.

(** X10: [verifyRequirementsYAML] touches the file store in one way only:
    either it saves nothing and leaves the receiver and the file store as
    they were, or it saves once, under the name of the file it loaded, and
    the state it leaves is the one that [SaveFile] leaves.  This holds of
    every run, also of those that return an error. *)
Theorem verifyRequirementsYAML_frame resolver prefixes fileName s :
  let run := verifyRequirementsYAML resolver prefixes fileName s in
  (saves (events run) = [] ∧ final run = s) ∨
  (∃ doc,
     saves (events run) = [(fileName, doc)] ∧
     final run = set_world (helm_SaveFile fileName doc (world s)).1 s).
Proof.
  intros run. unfold run.
  destruct (helm_LoadRequirementsFile fileName (world s)) as [req [e|]]
    eqn:Hload.
  { rewrite (verifyRequirementsYAML_load_error _ _ _ _ _ _ Hload).
    by left. }
  destruct (verifyRequirementsYAML_loop_run resolver prefixes fileName
              (Dependencies req) false s) as (deps' & m' & err & ev & Hloop).
  rewrite (verifyRequirementsYAML_loaded _ _ _ _ _ _ _ _ _ Hload Hloop).
  pose proof (verifyRequirementsYAML_loop_saves resolver prefixes fileName
                (Dependencies req) false s) as Hsaves.
  rewrite Hloop in Hsaves. cbn [events snd] in Hsaves.
  destruct err as [e|]; [by left|]. destruct m'; [|by left].
  right. exists {| Dependencies := deps' |}.
  cbn [result final events fst snd]. split; [|done].
  unfold saves in *. cbn [omap list_omap]. rewrite omap_app, Hsaves.
  by destruct (helm_SaveFile _ _ _).2.
Qed.

(** X11: when no entry fails, at least one entry had no version and
    [SaveFile] returns an error, [verifyRequirementsYAML] returns that
    error wrapped with the name of the file; the save was its last call. *)
Theorem verifyRequirementsYAML_save_failure
    resolver prefixes fileName s req w e :
  let doc :=
    {| Dependencies := resolved resolver prefixes <$> Dependencies req |} in
  let run := verifyRequirementsYAML resolver prefixes fileName s in
  helm_LoadRequirementsFile fileName (world s) = (req, None) →
  Forall (λ dep, failure resolver prefixes dep = None) (Dependencies req) →
  Exists (λ dep, Version dep = "") (Dependencies req) →
  helm_SaveFile fileName doc (world s) = (w, Some e) →
  result run = Some (Wrapf e ("failed to save " +:+ fileName)) ∧
  final run = set_world w s ∧
  last (events run) = Some (SaveFileCall fileName doc).
Proof.
  intros doc run Hload Hpass Hempty Hsave.
  destruct (verifyRequirementsYAML_loop_run resolver prefixes fileName
              (Dependencies req) false s) as (deps' & m' & err & ev & Hloop).
  pose proof (verifyRequirementsYAML_loop_passes resolver prefixes fileName
                (Dependencies req) false s Hpass) as Herr.
  rewrite Hloop in Herr. cbn in Herr. subst err.
  pose proof (verifyRequirementsYAML_loop_resolved_all _ _ _ _ _ _ _ _ _
                Hloop) as Hdeps.
  destruct (verifyRequirementsYAML_loop_completed _ _ _ _ _ _ _ _ _ Hloop)
    as (_ & Hall & _).
  assert (m' = true) as ->.
  { apply (verifyRequirementsYAML_loop_modified _ _ _ _ _ _ _ _ _ _ Hloop).
    right. intros Hsame. rewrite Hsame in Hall.
    apply Exists_exists in Hempty as (dep & Hin & Hv).
    rewrite Forall_forall in Hall. by apply (Hall dep Hin). }
  unfold run.
  rewrite (verifyRequirementsYAML_loaded _ _ _ _ _ _ _ _ _ Hload Hloop).
  subst deps'. fold doc. rewrite Hsave.
  cbn [result final events fst snd]. split_and!; [done..|].
  rewrite app_comm_cons. by rewrite last_snoc.
Qed.

(** X12: the error that [verifyRequirementsYAML] returns at the first
    entry that fails, one message for each kind of failure.  An entry
    without a repository and an entry for which the catalog returns the
    empty version make a fresh error that names the entry by its alias
    when it has one and by its name otherwise, and the file; the second
    also names the chart asked for.  A repository without a prefix makes
    a fresh error that names the repository and the file, not the entry.
    An error of the catalog is kept as the cause, wrapped with the name of
    the chart asked for and of the file. *)
Theorem verifyRequirementsYAML_failure_error
    resolver prefixes fileName s req pre dep post k :
  helm_LoadRequirementsFile fileName (world s) = (req, None) →
  Dependencies req = pre ++ dep :: post →
  Forall (λ p, failure resolver prefixes p = None) pre →
  failure resolver prefixes dep = Some k →
  let got := result (verifyRequirementsYAML resolver prefixes fileName s) in
  let chart := fullChartName prefixes dep in
  match k with
  | MissingRepository =>
      got = Some (Errorf (
        "cannot to find a version for dependency " +:+ displayName dep +:+
        " in file " +:+ fileName +:+ " as there is no 'repository'"))
  | NoPrefixForRepository =>
      got = Some (Errorf (
        "the helm repository " +:+ Repository dep +:+
        " does not have an associated prefix in in the 'charts/repositories.yml' file the version stream, so we cannot default the version in file "
        +:+ fileName))
  | CatalogError =>
      ∃ e, (StableVersionNumber resolver KindChart chart).2 = Some e ∧
           got = Some (Wrapf e (
             "failed to find version of chart " +:+ chart +:+ " in file " +:+
             fileName))
  | NoVersionFound =>
      got = Some (Errorf (
        "failed to find a version for dependency " +:+ displayName dep +:+
        " in file " +:+ fileName +:+
        " in the current version stream - please either add an explicit version to this file or add chart "
        +:+ chart +:+ " to the version stream"))
  end.
Proof.
  intros Hload Hsplit Hpre Hk got chart.
  destruct (verifyRequirementsYAML_loop_first_failure resolver prefixes
              fileName pre dep post false s k Hpre Hk)
    as (deps' & m' & ev & Hloop & [e He] & _).
  rewrite <- Hsplit in Hloop.
  assert (Hgot : got =
    (result (verifyRequirementsYAML_dep resolver prefixes fileName dep s)).2).
  { unfold got.
    rewrite (verifyRequirementsYAML_loaded _ _ _ _ _ _ _ _ _ Hload Hloop).
    by rewrite He. }
  rewrite Hgot. clear Hgot He Hloop.
  unfold failure in Hk. unfold chart, fullChartName.
  unfold verifyRequirementsYAML_dep, callStableVersionNumber, logf, emit,
    bind, ret.
  repeat case_decide; try discriminate.
  - by injection Hk as <-.
  - by injection Hk as <-.
  - destruct (StableVersionNumber _ _ _) as [v [e'|]].
    + injection Hk as <-. by exists e'.
    + case_decide; [|discriminate]. by injection Hk as <-.
Qed.

(** ** replaceMissingVersionsFromVersionStream *)

Ltac step_replace :=
  unfold replaceMissingVersionsFromVersionStream, FileExists, logf, emit,
    read_Dir, callGetRepositoryPrefixes, bind, ret.

(** X13: when the existence check of the requirements file fails or says
    that there is no such file, [replaceMissingVersionsFromVersionStream]
    stops there: it returns the error of the check wrapped with the name
    of the file, or no error after a note in the log; the resolver is not
    asked for, nothing is loaded, and the receiver and the file system are
    as they were. *)
Theorem replaceMissingVersionsFromVersionStream_no_file
    requirementsConfig dir s b err :
  let fileName := filepath_Join [dir; RequirementsFileName] in
  util_FileExists fileName (world s) = (b, err) →
  b = false ∨ err ≠ None →
  replaceMissingVersionsFromVersionStream requirementsConfig dir s =
    (match err with
     | Some e => Some (Wrapf e ("failed to check for file " +:+ fileName))
     | None => None
     end,
     s,
     FileExistsCall fileName ::
     match err with
     | Some _ => []
     | None =>
         [LogCall Info ("No requirements file: " +:+ fileName +:+
                        " so not checking for missing versions" +:+ nl)]
     end).
Proof.
  intros fileName Hstat Hno. step_replace. fold fileName. rewrite Hstat.
  destruct err as [e|]; [done|].
  destruct Hno as [->|?]; done.
Qed.

(** X14: when the requirements file exists, the resolver is had and its
    repository prefixes load, the method is [verifyRequirementsYAML] run
    with that resolver and those prefixes on the file under [dir], from
    the state that the making of the resolver left: it leaves the state
    that run leaves, returns no error when that run returns none, and
    otherwise that run's error wrapped with the name of the file. *)
Theorem replaceMissingVersionsFromVersionStream_verifies
    requirementsConfig dir s r s1 ev1 prefixes :
  let fileName := filepath_Join [dir; RequirementsFileName] in
  let vs := VersionStream requirementsConfig in
  util_FileExists fileName (world s) = (true, None) →
  getOrCreateVersionResolver requirementsConfig s = ((r, None), s1, ev1) →
  GetRepositoryPrefixes r = (prefixes, None) →
  let inner := verifyRequirementsYAML r prefixes fileName s1 in
  replaceMissingVersionsFromVersionStream requirementsConfig dir s =
    (match result inner with
     | Some e =>
         Some (Wrapf e ("failed to replace missing versions in file " +:+
                        fileName))
     | None => None
     end,
     final inner,
     [FileExistsCall fileName;
      LogCall Info
        ("Verifying the helm requirements versions in dir: " +:+ Dir s +:+
         " using version stream URL: " +:+ URL vs +:+ " and git ref: " +:+
         Ref vs +:+ nl)] ++
     ev1 ++ [GetRepositoryPrefixesCall r] ++ events inner).
Proof.
  intros fileName vs Hstat Hgot Hprefixes inner. step_replace.
  fold fileName. fold vs. rewrite Hstat. cbn [negb].
  rewrite Hgot, Hprefixes. fold inner.
  destruct inner as [[[e|] s2] ev2]; cbn; by rewrite ?app_nil_r.
Qed.

(** X15: when the requirements file exists and the resolver cannot be
    constructed, the method returns the constructor's error wrapped twice
    with the same words (once by [getOrCreateVersionResolver], once here),
    and has loaded and saved nothing and asked for no prefixes. *)
Theorem replaceMissingVersionsFromVersionStream_no_resolver
    requirementsConfig dir s w created e :
  let fileName := filepath_Join [dir; RequirementsFileName] in
  let vs := VersionStream requirementsConfig in
  let run := replaceMissingVersionsFromVersionStream requirementsConfig
               dir s in
  util_FileExists fileName (world s) = (true, None) →
  versionResolver s = None →
  CreateVersionResolver (URL vs) (Ref vs) (world s) = (w, (created, Some e)) →
  result run =
    Some (Wrapf (Wrapf e "failed to create version resolver")
            "failed to create version resolver") ∧
  (∀ err, result run = Some err →
     Error err =
       "failed to create version resolver: failed to create version resolver: "
       +:+ Error e) ∧
  final run = set_versionResolver created (set_world w s) ∧
  events run =
    [FileExistsCall fileName;
     LogCall Info
       ("Verifying the helm requirements versions in dir: " +:+ Dir s +:+
        " using version stream URL: " +:+ URL vs +:+ " and git ref: " +:+
        Ref vs +:+ nl);
     CreateVersionResolverCall (URL vs) (Ref vs)].
Proof.
  intros fileName vs run Hstat Hr Hmade. unfold run. step_replace.
  fold fileName. fold vs. rewrite Hstat. cbn [negb].
  rewrite (getOrCreateVersionResolver_fresh _ _ Hr). fold vs.
  rewrite Hmade. cbn. split_and!; [done| |done..].
  by intros err [= <-].
Qed.

(** X16: when the repository prefixes do not load, the method returns that
    error wrapped and does not load the requirements file; the resolver it
    had made stays with the receiver. *)
Theorem replaceMissingVersionsFromVersionStream_no_prefixes
    requirementsConfig dir s r s1 ev1 prefixes e :
  let fileName := filepath_Join [dir; RequirementsFileName] in
  let run := replaceMissingVersionsFromVersionStream requirementsConfig
               dir s in
  util_FileExists fileName (world s) = (true, None) →
  getOrCreateVersionResolver requirementsConfig s = ((r, None), s1, ev1) →
  GetRepositoryPrefixes r = (prefixes, Some e) →
  result run = Some (Wrapf e "failed to load repository prefixes") ∧
  final run = s1 ∧
  versionResolver (final run) = r ∧
  existsb isLoadRequirementsFileCall (events run) = false ∧
  last (events run) = Some (GetRepositoryPrefixesCall r).
Proof.
  intros fileName run Hstat Hgot Hprefixes.
  pose proof (getOrCreateVersionResolver_answers_field requirementsConfig s)
    as (Hfield & _ & Hstored & Hfresh).
  assert (Hev : existsb isLoadRequirementsFileCall ev1 = false).
  { destruct (versionResolver s) as [r0|] eqn:Hr.
    - rewrite Hstored in Hgot by done. by injection Hgot as _ _ <-.
    - destruct (Hfresh eq_refl) as (Hcalls & _).
      rewrite Hgot in Hcalls. cbn in Hcalls. by subst ev1. }
  rewrite Hgot in Hfield. cbn in Hfield.
  unfold run. step_replace. fold fileName. rewrite Hstat. cbn [negb].
  rewrite Hgot, Hprefixes. cbn [result final events fst snd].
  split_and!; [done..| |].
  - cbn. by rewrite !existsb_app, Hev.
  - rewrite app_nil_r, !app_assoc. by rewrite last_snoc.
Qed.

Lemma lookups_app (l1 l2 : list (Event VersionResolver Values)) :
  lookups (l1 ++ l2) = lookups l1 ++ lookups l2.
Proof. apply omap_app. Qed.

(** The lookups of [verifyRequirementsYAML] go to the resolver it was
    given, for the kind chart. *)
Lemma verifyRequirementsYAML_lookups_by resolver prefixes fileName s r k n :
  (r, k, n) ∈ lookups (events (verifyRequirementsYAML resolver prefixes
                                 fileName s)) →
  r = resolver ∧ k = KindChart.
Proof.
  intros Hin. apply list_elem_of_omap in Hin as (x & Hx & Hsome).
  destruct x; try discriminate. injection Hsome as -> -> ->.
  revert Hx.
  destruct (helm_LoadRequirementsFile fileName (world s)) as [req [e|]]
    eqn:Hload.
  { rewrite (verifyRequirementsYAML_load_error _ _ _ _ _ _ Hload).
    cbn. intros Hx. by apply list_elem_of_singleton in Hx. }
  destruct (verifyRequirementsYAML_loop_run resolver prefixes fileName
              (Dependencies req) false s) as (deps' & m' & err & ev & Hloop).
  rewrite (verifyRequirementsYAML_loaded _ _ _ _ _ _ _ _ _ Hload Hloop).
  assert (Hev : StableVersionNumberCall r k n ∈ ev →
                r = resolver ∧ k = KindChart).
  { intros Hx.
    pose proof (verifyRequirementsYAML_loop_events resolver prefixes fileName
                  (Dependencies req) false s
                  (StableVersionNumberCall r k n)) as Hkind.
    rewrite Hloop in Hkind.
    destruct (Hkind Hx) as [[? Heq]|[? Heq]]; [|done].
    by injection Heq as -> -> _. }
  destruct err as [e|]; cbn.
  { intros Hx. apply elem_of_cons in Hx as [?|?]; [done|auto]. }
  destruct m'; cbn.
  - intros Hx. apply elem_of_cons in Hx as [?|Hx]; [done|].
    apply elem_of_app in Hx as [?|Hx]; [auto|].
    apply elem_of_cons in Hx as [?|Hx]; [done|].
    destruct (helm_SaveFile _ _ _).2; [by apply elem_of_nil in Hx|].
    by apply list_elem_of_singleton in Hx.
  - intros Hx. apply elem_of_cons in Hx as [?|?]; [done|auto].
Qed.

(** X17: every lookup that [replaceMissingVersionsFromVersionStream] makes
    in the catalog goes to the resolver that the receiver holds when the
    method returns, and asks for the kind chart. *)
Theorem replaceMissingVersionsFromVersionStream_lookups
    requirementsConfig dir s r k n :
  let run := replaceMissingVersionsFromVersionStream requirementsConfig
               dir s in
  (r, k, n) ∈ lookups (events run) →
  r = versionResolver (final run) ∧ k = KindChart.
Proof.
  intros run. unfold run. step_replace.
  destruct (util_FileExists _ (world s)) as [b [e|]].
  { cbn. intros Hin. by apply elem_of_nil in Hin. }
  destruct b; cbn [negb].
  2: { cbn. intros Hin. by apply elem_of_nil in Hin. }
  pose proof (getOrCreateVersionResolver_answers_field requirementsConfig s)
    as (Hfield & _ & Hstored & Hfresh).
  assert (Hnone : lookups (events (getOrCreateVersionResolver
                                     requirementsConfig s)) = []).
  { destruct (versionResolver s) as [r0|] eqn:Hr.
    - by rewrite Hstored.
    - destruct (Hfresh eq_refl) as (-> & _). done. }
  destruct (getOrCreateVersionResolver requirementsConfig s)
    as [[[r0 [e|]] s1] ev1]; unfold result, final, events in *;
    cbn [fst snd] in *.
  { rewrite !lookups_app, Hnone. cbn.
    intros Hin. by apply elem_of_nil in Hin. }
  destruct (GetRepositoryPrefixes r0) as [prefixes [e|]]; cbn [fst snd].
  { rewrite !lookups_app, Hnone. cbn.
    intros Hin. by apply elem_of_nil in Hin. }
  destruct (verifyRequirementsYAML_keeps r0 prefixes
              (filepath_Join [dir; RequirementsFileName]) s1) as [Hkeep _].
  pose proof (verifyRequirementsYAML_lookups_by r0 prefixes
                (filepath_Join [dir; RequirementsFileName]) s1 r k n)
    as Hby.
  destruct (verifyRequirementsYAML r0 prefixes _ s1) as [[err s2] ev2].
  unfold result, final, events in *. cbn [fst snd] in *.
  destruct err as [e|]; cbn [fst snd]; rewrite !lookups_app, Hnone; cbn;
    rewrite ?app_nil_r; intros Hin; destruct (Hby Hin) as [-> ->];
    split; congruence.
Qed.

(** X18: once [replaceMissingVersionsFromVersionStream] has made the
    resolver, it stays with the receiver however the rest of the method
    goes, and a following [overwriteProviderValues] constructs none and
    binds its versionStream function to that same resolver. *)
Theorem resolver_shared_by_resolution_and_overrides
    requirementsConfig dir s w r :
  let fileName := filepath_Join [dir; RequirementsFileName] in
  let vs := VersionStream requirementsConfig in
  let run := replaceMissingVersionsFromVersionStream requirementsConfig
               dir s in
  util_FileExists fileName (world s) = (true, None) →
  versionResolver s = None →
  CreateVersionResolver (URL vs) (Ref vs) (world s) = (w, (Some r, None)) →
  versionResolver (final run) = Some r ∧
  length (filter (λ e, isCreateVersionResolverCall e = true) (events run))
    = 1 ∧
  ∀ cfg requirementsFileName valuesData params providersValuesDir,
    let next := overwriteProviderValues cfg requirementsFileName valuesData
                  params providersValuesDir (final run) in
    final next = final run ∧
    existsb isCreateVersionResolverCall (events next) = false ∧
    result (createFuncMap cfg (final run)) =
      (<["versionStream" := Func2 (versionStream (Some r))]>
         helm_NewFunctionMap, None).
Proof.
  intros fileName vs run Hstat Hr Hmade.
  assert (Hgot : getOrCreateVersionResolver requirementsConfig s =
            ((Some r, None), set_versionResolver (Some r) (set_world w s),
             [CreateVersionResolverCall (URL vs) (Ref vs)])).
  { rewrite (getOrCreateVersionResolver_fresh _ _ Hr). fold vs.
    by rewrite Hmade. }
  assert (Hrun : versionResolver (final run) = Some r ∧
    length (filter (λ e, isCreateVersionResolverCall e = true) (events run))
      = 1).
  { unfold run. step_replace. fold fileName. rewrite Hstat. cbn [negb].
    rewrite Hgot.
    destruct (GetRepositoryPrefixes (Some r)) as [prefixes [e|]];
      [done|].
    destruct (verifyRequirementsYAML_keeps (Some r) prefixes fileName
                (set_versionResolver (Some r) (set_world w s)))
      as [Hkeep Hev].
    destruct (verifyRequirementsYAML (Some r) prefixes fileName _)
      as [[err s2] ev2].
    unfold final, events in Hkeep, Hev. cbn [fst snd] in Hkeep, Hev.
    assert (Hnone :
      filter (λ e, isCreateVersionResolverCall e = true) ev2 = []).
    { clear Hkeep. induction ev2 as [|x ev2 IH]; [done|]. cbn in Hev.
      apply orb_false_elim in Hev as [Hx Hev].
      rewrite filter_cons_False by (rewrite Hx; done). by apply IH. }
    destruct err as [e|]; unfold final, events; cbn [fst snd];
      (split; [exact Hkeep|]); rewrite !filter_app, Hnone; done. }
  destruct Hrun as [Hstored Hone]. split_and!; [done..|].
  intros cfg requirementsFileName valuesData params providersValuesDir next.
  destruct (overwriteProviderValues_keeps cfg requirementsFileName
              valuesData params providersValuesDir (final run) r Hstored)
    as [Hfinal Hev].
  split_and!; [done..|].
  by rewrite (createFuncMap_stored _ _ _ Hstored).
Qed.

(** ** getChartValues *)

(** X19: the values that [getChartValues] answers tell the namespaces
    apart: two namespaces get the same values only when they are the same
    namespace, whatever [util.ToCamelCase] makes of them. *)
Theorem getChartValues_injective ToCamelCase targetNS targetNS' :
  getChartValues ToCamelCase targetNS = getChartValues ToCamelCase targetNS'
  ↔ targetNS = targetNS'.
Proof.
  split; [|by intros ->].
  intros Heq. apply (f_equal snd) in Heq. cbn in Heq. by simplify_eq.
Qed.

End Further.

(** * The further properties on the concrete world *)

(** A directory in which the check of secrets.yaml fails. *)
Lemma discoverValuesFiles_first_error_witness :
  result (discoverValuesFiles "chart" (fresh []))
    = (["chart/values.yaml"],
       Some (Errorf
         "stat chart/secrets.yaml: too many levels of symbolic links")) ∧
  events (discoverValuesFiles "chart" (fresh []))
    = [FileExistsCall "chart/values.yaml";
       FileExistsCall "chart/secrets.yaml"].
Proof.
  rewrite (discoverValuesFiles_first_error "chart" (fresh [])
             ["values.yaml"] "secrets.yaml" ["myvalues.yaml"] false
             (Errorf
                "stat chart/secrets.yaml: too many levels of symbolic links")).
  - vm_compute. done.
  - reflexivity.
  - intros n Hn. apply list_elem_of_singleton in Hn as ->.
    vm_compute. reflexivity.
  - vm_compute. reflexivity.
Defined.

(** A version stream that cannot be cloned, then one that can. *)
Lemma getOrCreateVersionResolver_retries_witness :
  let x := getOrCreateVersionResolver unreachable (fresh []) in
  result x =
    (None,
     Some (Wrapf (Errorf "cannot clone https://git.example.com/versions.git")
             "failed to create version resolver")) ∧
  versionResolver (final x) = None ∧
  events (getOrCreateVersionResolver (config "gke") (final x)) =
    [CreateVersionResolverCall
       "https://github.com/jenkins-x/jenkins-x-versions.git" "master"].
Proof.
  intros x.
  destruct (getOrCreateVersionResolver_retries unreachable (fresh [])
              (disk [])
              (Errorf "cannot clone https://git.example.com/versions.git"))
    as (Hres & Hstored & _ & Hnext).
  - reflexivity.
  - vm_compute. reflexivity.
  - split_and!; [exact Hres|exact Hstored|exact (Hnext (config "gke"))].
Defined.

(** The provider gke: its overrides are merged into the values, and the
    lookup that its template makes while it is rendered is in the trace. *)
Lemma overwriteProviderValues_merged_witness :
  let run :=
    overwriteProviderValues (config "gke") "jx-requirements.yml"
      [Byte.x62; Byte.x3a; Byte.x20; Byte.x32] [] "overrides" (fresh []) in
  result run
  = ([Byte.x62; Byte.x3a; Byte.x20; Byte.x32;
      Byte.x61; Byte.x3a; Byte.x20; Byte.x31], None) ∧
  events run
  = [FileExistsCall "overrides/gke/values.tmpl.yaml";
     LogCall Info
       ("Applying the kubernetes overrides at overrides/gke/values.tmpl.yaml"
        +:+ nl);
     CreateVersionResolverCall
       "https://github.com/jenkins-x/jenkins-x-versions.git" "master";
     ReadValuesYamlFileTemplateOutputCall "overrides/gke/values.tmpl.yaml";
     StableVersionNumberCall resolver "charts" "stable/nginx";
     LoadValuesCall [Byte.x62; Byte.x3a; Byte.x20; Byte.x32];
     LoadValuesCall [Byte.x61; Byte.x3a; Byte.x20; Byte.x31];
     CombineMapTreesCall [Byte.x62; Byte.x3a; Byte.x20; Byte.x32]
       [Byte.x61; Byte.x3a; Byte.x20; Byte.x31];
     MarshalCall [Byte.x62; Byte.x3a; Byte.x20; Byte.x32;
                  Byte.x61; Byte.x3a; Byte.x20; Byte.x31]].
Proof.
  intros run.
  pose (made := createFuncMap (config "gke") (fresh [])).
  destruct (overwriteProviderValues_merged (config "gke")
              "jx-requirements.yml" [Byte.x62; Byte.x3a; Byte.x20; Byte.x32]
              [] "overrides" (fresh [])
              (result made).1 (final made) (events made)
              [Byte.x61; Byte.x3a; Byte.x20; Byte.x31]
              [Byte.x62; Byte.x3a; Byte.x20; Byte.x32]
              [Byte.x61; Byte.x3a; Byte.x20; Byte.x31])
    as [Hrun Hcalls].
  - vm_compute. discriminate.
  - vm_compute. reflexivity.
  - vm_compute. reflexivity.
  - vm_compute. reflexivity.
  - discriminate.
  - reflexivity.
  - reflexivity.
  - subst run. rewrite Hrun. split; vm_compute; reflexivity.
Defined.

(** No provider, and a provider without a file of overrides. *)
Lemma overwriteProviderValues_idle_witness :
  let values := [Byte.x62; Byte.x3a; Byte.x20; Byte.x32] in
  events (overwriteProviderValues (config "") "jx-requirements.yml" values
            [] "overrides" (fresh []))
    = [LogCall Warn
         ("No provider in the requirements file jx-requirements.yml" +:+ nl)] ∧
  final (overwriteProviderValues (config "aks") "jx-requirements.yml" values
           [] "overrides" (fresh [])) = fresh [].
Proof.
  intros values. split.
  - rewrite overwriteProviderValues_idle; [reflexivity|].
    left. reflexivity.
  - rewrite overwriteProviderValues_idle; [reflexivity|].
    right. vm_compute. reflexivity.
Defined.

(** A run that constructs no resolver leaves the options as they were. *)
Lemma overwriteProviderValues_frame_witness :
  final (overwriteProviderValues (config "aks") "jx-requirements.yml"
           [Byte.x62] [] "overrides" (fresh [nginx])) = fresh [nginx].
Proof.
  apply overwriteProviderValues_frame. vm_compute. reflexivity.
Defined.

(** The document [web; orphan]: the version of web is set, nothing else
    changes, whatever becomes of the run. *)
Lemma verifyRequirementsYAML_only_sets_versions_witness :
  Forall2 versionSet [web; orphan]
    (result (verifyRequirementsYAML_loop resolver prefixes file
               [web; orphan] false (fresh [web; orphan]))).1.1.
Proof.
  refine (proj1 (verifyRequirementsYAML_only_sets_versions resolver prefixes
                   file (fresh [web; orphan])
                   {| Dependencies := [web; orphan] |} _)).
  vm_compute. reflexivity.
Defined.

(** The document [nginx; redis]: nginx takes the version 1.2.3 of the
    catalog, and that document is saved. *)
Lemma verifyRequirementsYAML_resolves_from_catalog_witness :
  saves (events (verifyRequirementsYAML resolver prefixes file
                   (fresh [nginx; redis])))
  = [(file, {| Dependencies := [set_Version "1.2.3" nginx; redis] |})].
Proof.
  destruct (verifyRequirementsYAML_resolves_from_catalog resolver prefixes
              file (fresh [nginx; redis])
              {| Dependencies := [nginx; redis] |})
    as (_ & _ & _ & Hsaved).
  - vm_compute. reflexivity.
  - vm_compute. reflexivity.
  - destruct Hsaved as [Hsaves _].
    + apply Exists_cons_hd. reflexivity.
    + rewrite Hsaves. vm_compute. reflexivity.
Defined.

(** A file store that cannot be written: the error of the save comes back
    wrapped. *)
Lemma verifyRequirementsYAML_save_failure_witness :
  result (verifyRequirementsYAML (H := degraded) resolver prefixes
            file (fresh [nginx; redis]))
  = Some (Wrapf
            (Errorf "open chart/requirements.yaml: read-only file system")
            "failed to save chart/requirements.yaml").
Proof.
  destruct (verifyRequirementsYAML_save_failure (Externals0 := degraded)
              resolver prefixes file (fresh [nginx; redis])
              {| Dependencies := [nginx; redis] |} (disk [nginx; redis])
              (Errorf "open chart/requirements.yaml: read-only file system"))
    as (Hres & _).
  - vm_compute. reflexivity.
  - repeat constructor; vm_compute; reflexivity.
  - apply Exists_cons_hd. reflexivity.
  - vm_compute. reflexivity.
  - exact Hres.
Defined.

(** The document [redis; flaky]: the catalog cannot read the chart of
    flaky, and its error is the cause of the error returned. *)
Lemma verifyRequirementsYAML_failure_error_witness :
  ∃ e,
    e = Errorf "cannot read stable/flaky" ∧
    result (verifyRequirementsYAML resolver prefixes file
              (fresh [redis; flaky]))
    = Some (Wrapf e
        "failed to find version of chart stable/flaky in file chart/requirements.yaml").
Proof.
  destruct (verifyRequirementsYAML_failure_error resolver prefixes file
              (fresh [redis; flaky]) {| Dependencies := [redis; flaky] |}
              [redis] flaky [] CatalogError) as (e & He & Hres).
  - vm_compute. reflexivity.
  - reflexivity.
  - repeat constructor; vm_compute; reflexivity.
  - vm_compute. reflexivity.
  - exists e. split; [|exact Hres].
    vm_compute in He. by injection He as <-.
Defined.

(** A chart directory without requirements. *)
Lemma replaceMissingVersionsFromVersionStream_no_file_witness :
  result (replaceMissingVersionsFromVersionStream (config "gke") "chart"
            tidy) = None ∧
  events (replaceMissingVersionsFromVersionStream (config "gke") "chart"
            tidy)
    = [FileExistsCall "chart/requirements.yaml";
       LogCall Info
         ("No requirements file: chart/requirements.yaml so not checking for missing versions"
          +:+ nl)].
Proof.
  rewrite (replaceMissingVersionsFromVersionStream_no_file (config "gke")
             "chart" tidy false None).
  - split; reflexivity.
  - vm_compute. reflexivity.
  - left. reflexivity.
Defined.

(** The chart [nginx; redis] on fresh options. *)
Lemma replaceMissingVersionsFromVersionStream_verifies_witness :
  let run := replaceMissingVersionsFromVersionStream (config "gke") "chart"
               (fresh [nginx; redis]) in
  result run = None ∧
  saves (events run)
    = [(file, {| Dependencies := [set_Version "1.2.3" nginx; redis] |})].
Proof.
  intros run. unfold run.
  pose (got := getOrCreateVersionResolver (config "gke")
                 (fresh [nginx; redis])).
  rewrite (replaceMissingVersionsFromVersionStream_verifies (config "gke")
             "chart" (fresh [nginx; redis]) resolver (final got)
             (events got) prefixes).
  - split; vm_compute; reflexivity.
  - vm_compute. reflexivity.
  - vm_compute. reflexivity.
  - reflexivity.
Defined.

(** A version stream that cannot be cloned. *)
Lemma replaceMissingVersionsFromVersionStream_no_resolver_witness :
  Error <$> result (replaceMissingVersionsFromVersionStream unreachable
                      "chart" (fresh [nginx]))
  = Some
      "failed to create version resolver: failed to create version resolver: cannot clone https://git.example.com/versions.git".
Proof.
  destruct (replaceMissingVersionsFromVersionStream_no_resolver unreachable
              "chart" (fresh [nginx]) (disk [nginx]) None
              (Errorf "cannot clone https://git.example.com/versions.git"))
    as (Hres & Hmsg & _).
  - vm_compute. reflexivity.
  - reflexivity.
  - vm_compute. reflexivity.
  - rewrite Hres. cbn [fmap option_fmap option_map].
    rewrite (Hmsg _ Hres). reflexivity.
Defined.

(** A version stream without a file of repository prefixes. *)
Lemma replaceMissingVersionsFromVersionStream_no_prefixes_witness :
  let run := replaceMissingVersionsFromVersionStream (H := degraded)
               (config "gke") "chart" (fresh [nginx]) in
  result run =
    Some (Wrapf
            (Errorf "open charts/repositories.yml: no such file or directory")
            "failed to load repository prefixes") ∧
  versionResolver (final run) = resolver.
Proof.
  intros run.
  pose (got := getOrCreateVersionResolver (H := degraded)
                 (config "gke") (fresh [nginx])).
  destruct (replaceMissingVersionsFromVersionStream_no_prefixes
              (Externals0 := degraded) (config "gke") "chart" (fresh [nginx])
              resolver (final got) (events got) ∅
              (Errorf
                 "open charts/repositories.yml: no such file or directory"))
    as (Hres & _ & Hstored & _).
  - vm_compute. reflexivity.
  - vm_compute. reflexivity.
  - reflexivity.
  - split; [exact Hres|exact Hstored].
Defined.

(** The lookup of nginx goes to the resolver that the options hold. *)
Lemma replaceMissingVersionsFromVersionStream_lookups_witness :
  resolver =
    versionResolver
      (final (replaceMissingVersionsFromVersionStream (config "gke") "chart"
                (fresh [nginx; redis]))) ∧
  "charts" = KindChart.
Proof.
  apply (replaceMissingVersionsFromVersionStream_lookups (config "gke")
           "chart" (fresh [nginx; redis]) resolver "charts" "stable/nginx").
  assert (Hlook :
    lookups (events (replaceMissingVersionsFromVersionStream (config "gke")
                       "chart" (fresh [nginx; redis])))
    = [(resolver, "charts", "stable/nginx")]) by (vm_compute; reflexivity).
  rewrite Hlook. apply list_elem_of_here.
Defined.

(** Resolution, then overrides, on fresh options: one clone. *)
Lemma resolver_shared_by_resolution_and_overrides_witness :
  let run := replaceMissingVersionsFromVersionStream (config "gke") "chart"
               (fresh [nginx; redis]) in
  versionResolver (final run) = resolver ∧
  existsb isCreateVersionResolverCall
    (events (overwriteProviderValues (config "gke") "jx-requirements.yml"
               [Byte.x62] [] "overrides" (final run))) = false.
Proof.
  intros run.
  destruct (resolver_shared_by_resolution_and_overrides (config "gke")
              "chart" (fresh [nginx; redis]) (disk [nginx; redis]) catalog)
    as (Hstored & _ & Hnext).
  - vm_compute. reflexivity.
  - reflexivity.
  - vm_compute. reflexivity.
  - split; [exact Hstored|].
    by destruct (Hnext (config "gke") "jx-requirements.yml" [Byte.x62] []
                   "overrides") as (_ & Hev & _).
Defined.
